(** * GaN MOSFET simulator: the analytic device-physics model

    A shallow embedding of the physics functions that the Streamlit pages
    [pages/3_Simulation_Interface.py] and [pages/4_Graphs_and_Trends.py]
    define and run, and of the material table of
    [pages/2_Material_Properties.py], followed by the properties of the
    specification that concern them.  Of [3_Simulation_Interface.py] only
    lines 1-616 are program text: lines 617-1098 and 1107-1571 are two
    string literals (two other versions of the page, with a material
    argument and a material database) that Python never executes, and
    nothing here is modelled from them.

    Number model.  A Python [float] (and a NumPy [float64]) is modelled
    by a real number: arithmetic is exact, and rounding, overflow,
    infinities and NaN are outside the model.  What Python itself does
    differently from real arithmetic is kept: [/] raises
    [ZeroDivisionError] on a zero divisor, [**] on a negative base and a
    fractional exponent yields a [complex], [0.0 ** y] raises for a
    negative [y], and a dictionary subscript raises [KeyError]. *)

From Stdlib Require Import Reals Lra Lia String List Bool Arith.
From Stdlib Require Import NArith Ascii.
Import ListNotations.

Set Implicit Arguments.

Open Scope R_scope.

(** ** Python values and exceptions *)

Module Py.

(** The built-in exceptions the modelled code can raise. *)
Inductive exn : Type :=
| ZeroDivisionError
| KeyError (key : string)
| ValueError.

(** Outcome of evaluating an expression: a value, or a raised exception. *)
Inductive result (A : Type) : Type :=
| Val (a : A)
| Raise (e : exn).

Arguments Val {A} a.
Arguments Raise {A} e.

Definition bind {A B : Type} (m : result A) (k : A -> result B) : result B :=
  match m with
  | Val a => k a
  | Raise e => Raise e
  end.

(** A number: a [float], or the [complex] that [**] can produce. *)
Inductive num : Type :=
| Float (x : R)
| Complex (re im : R).

Definition to_complex (n : num) : R * R :=
  match n with
  | Float x => (x, 0)
  | Complex re im => (re, im)
  end.

(** [a * b]: float product, or complex product once an operand is complex. *)
Definition mul (a b : num) : num :=
  match a, b with
  | Float x, Float y => Float (x * y)
  | _, _ =>
      let (ar, ai) := to_complex a in
      let (br, bi) := to_complex b in
      Complex (ar * br - ai * bi) (ar * bi + ai * br)
  end.

(** [x / y] on floats. *)
Definition div (x y : R) : result R :=
  if Req_dec_T y 0 then Raise ZeroDivisionError else Val (x / y).

(** [y == floor(y)]. *)
Definition is_integral (y : R) : bool :=
  if Req_dec_T y (IZR (Int_part y)) then true else false.

(** [x ** y] on floats ([float_pow] of CPython): [x ** 0] is [1];
    [0 ** y] is [0] for positive [y] and an error for negative [y]; a
    negative base with a fractional exponent goes to the complex power
    [|x|^y (cos (pi y) + i sin (pi y))]; a negative base with an
    integral exponent gives [|x|^y], negated when [y] is odd. *)
Definition pow (x y : R) : result num :=
  if Req_dec_T y 0 then Val (Float 1)
  else if Req_dec_T x 0 then
    if Rlt_dec y 0 then Raise ZeroDivisionError else Val (Float 0)
  else if Rlt_dec x 0 then
    if is_integral y then
      Val (Float (if Z.odd (Int_part y) then - Rpower (- x) y else Rpower (- x) y))
    else
      Val (Complex (Rpower (- x) y * cos (PI * y)) (Rpower (- x) y * sin (PI * y)))
  else Val (Float (Rpower x y)).

(** [a < b] as a boolean. *)
Definition lt (a b : R) : bool := if Rlt_dec a b then true else false.



End Py.

Import Py.

Notation "x <- m ;; k" := (Py.bind m (fun x => k))
  (at level 61, m at next level, right associativity).

(** ** NumPy values: scalars and one-dimensional arrays *)

Module Np.

(** What an argument such as [Vds] can be: a scalar (a Python number
    or a 0-d array) or a 1-d array such as [np.linspace] yields.
    Arrays of higher rank (the [np.meshgrid] grids of the surface
    plot) are outside the model. *)
Inductive nd (A : Type) : Type :=
| Zero_d (a : A)
| One_d (l : list A).

Arguments Zero_d {A} a.
Arguments One_d {A} l.

(** A unary ufunc, or a binary one whose other operand is a Python scalar. *)
Definition nd_map {A B : Type} (f : A -> B) (x : nd A) : nd B :=
  match x with
  | Zero_d a => Zero_d (f a)
  | One_d l => One_d (map f l)
  end.

(** A binary ufunc with broadcasting: a scalar or a length-1 array is
    stretched, equal lengths are combined element by element, and any
    other pair of shapes raises [ValueError]. *)
Definition nd_map2 {A B C : Type} (f : A -> B -> C) (x : nd A) (y : nd B)
  : result (nd C) :=
  match x, y with
  | Zero_d a, Zero_d b => Val (Zero_d (f a b))
  | Zero_d a, One_d l => Val (One_d (map (f a) l))
  | One_d l, Zero_d b => Val (One_d (map (fun a => f a b) l))
  | One_d [a], One_d l => Val (One_d (map (f a) l))
  | One_d l, One_d [b] => Val (One_d (map (fun a => f a b) l))
  | One_d l1, One_d l2 =>
      if Nat.eqb (length l1) (length l2)
      then Val (One_d (map (fun p => f (fst p) (snd p)) (combine l1 l2)))
      else Raise ValueError
  end.

(** [np.where(c, x, y)], with [sel] choosing (and promoting) one element. *)
Definition where_ {A : Type} (sel : bool -> A -> A -> A)
           (c : nd bool) (x y : nd A) : result (nd A) :=
  xy <- nd_map2 pair x y ;;
  nd_map2 (fun b p => sel b (fst p) (snd p)) c xy.

Definition sel_float (b : bool) (x y : R) : R := if b then x else y.

(** Selection between numbers: the result is complex as soon as one
    of the two operands is (dtype promotion). *)
Definition sel_num (b : bool) (x y : num) : num :=
  match x, y with
  | Float a, Float c => Float (if b then a else c)
  | _, _ => let (re, im) := to_complex (if b then x else y) in Complex re im
  end.

(** The order NumPy uses on complex numbers: lexicographic. *)
Definition complex_ge (a b : R * R) : bool :=
  if Rlt_dec (fst b) (fst a) then true
  else if Req_dec_T (fst a) (fst b)
       then (if Rle_dec (snd b) (snd a) then true else false)
       else false.

(** [np.maximum] on two elements. *)
Definition maximum (x y : num) : num :=
  match x, y with
  | Float a, Float b => Float (Rmax a b)
  | _, _ =>
      let (re, im) :=
        if complex_ge (to_complex x) (to_complex y)
        then to_complex x else to_complex y in
      Complex re im
  end.

(** Every element satisfies [P]. *)
Definition nd_Forall {A : Type} (P : A -> Prop) (x : nd A) : Prop :=
  match x with
  | Zero_d a => P a
  | One_d l => Forall P l
  end.

(** [np.linspace(start, stop, num)] with the default [endpoint=True]:
    [arange(0, num) * step + start] with [step = (stop - start) / (num - 1)],
    the last element then overwritten with [stop]; with fewer than two
    points there is no step and [arange(0, num) * (stop - start) + start]
    is returned. *)
Definition linspace (start stop : R) (num : nat) : list R :=
  let div := (num - 1)%nat in
  let delta := stop - start in
  let y :=
    map (fun i => if Nat.ltb 0 div
                  then INR i * (delta / INR div) + start
                  else INR i * delta + start)
        (seq 0 num) in
  if Nat.ltb 1 num then removelast y ++ [stop] else y.

End Np.

Import Np.

(** ** pages/3_Simulation_Interface.py: the real-time simulator *)

Module Realtime.

(** [mobility_temp_dep(mu_0, T_celsius)], lines 114-117. *)
Definition mobility_temp_dep (mu_0 T_celsius : R) : result num :=
  let T_kelvin := T_celsius + 273.15 in
  q <- Py.div 300 T_kelvin ;;
  p <- Py.pow q 1.5 ;;
  Val (Py.mul (Float mu_0) p).

(** [bandgap_temp_dep(Eg_0, T_celsius)], lines 119-124. *)
Definition bandgap_temp_dep (Eg_0 T_celsius : R) : result R :=
  let T_kelvin := T_celsius + 273.15 in
  let alpha := 0.909e-3 in
  let beta := 830 in
  q <- Py.div (alpha * T_kelvin ^ 2) (T_kelvin + beta) ;;
  Val (Eg_0 - q).

(** [breakdown_voltage_model(Eg, thickness=2e-6)], lines 126-130. *)
Definition breakdown_voltage_model (Eg thickness : R) : result num :=
  let base_bv := 350 in
  p <- Py.pow (Eg / 3.4) 2.5 ;;
  Val (Py.mul (Py.mul (Float base_bv) p) (Float (thickness / 2e-6))).

Definition default_thickness : R := 2e-6.

(** The body of [drain_current_model] up to the second [np.where]:
    the value of the local [Id] that the final clamp receives
    (lines 141-156). *)
Definition drain_current_Id (mu_eff : R) (Vgs Vds : nd R)
           (Eg_eff T_celsius Vth W L Cox : R) : result (nd num) :=
  wl <- Py.div W L ;;
  let beta := mu_eff * Cox * wl * 1e-4 in
  let Vds_sat := nd_map (fun v => v - Vth) Vgs in
  a <- nd_map2 Rmult (nd_map (fun v => v - Vth) Vgs) Vds ;;
  b <- nd_map2 Rminus a (nd_map (fun v => 0.5 * v ^ 2) Vds) ;;
  let Id_linear := nd_map (fun v => beta * v) b in
  Id_sat <- nd_map2 Rmult
              (nd_map (fun v => 0.5 * beta * (v - Vth) ^ 2) Vgs)
              (nd_map (fun v => 1 + 0.02 * v) Vds) ;;
  let thermal_factor := exp (- (T_celsius - 25) / 150) in
  bandgap_factor <- Py.pow (Eg_eff / 3.4) 0.5 ;;
  c <- nd_map2 Py.lt Vds Vds_sat ;;
  w <- where_ sel_float c Id_linear Id_sat ;;
  let Id := nd_map (fun v => Py.mul (Float (v * thermal_factor)) bandgap_factor) w in
  where_ sel_num (nd_map (fun v => Py.lt v Vth) Vgs) (Zero_d (Float 1e-12)) Id.

(** [drain_current_model(mu_eff, Vgs, Vds, Eg_eff, T_celsius, Vth=2.0,
    W=100e-6, L=1e-6, Cox=1.5e-6)], lines 138-158. *)
Definition drain_current_model (mu_eff : R) (Vgs Vds : nd R)
           (Eg_eff T_celsius Vth W L Cox : R) : result (nd num) :=
  Id <- drain_current_Id mu_eff Vgs Vds Eg_eff T_celsius Vth W L Cox ;;
  Val (nd_map (fun v => maximum v (Float 1e-12)) Id).

Definition default_Vth : R := 2.0.
Definition default_W : R := 100e-6.
Definition default_L : R := 1e-6.
Definition default_Cox : R := 1.5e-6.

(** [saturation_velocity_temp(T_celsius)], lines 132-136. *)
Definition saturation_velocity_temp (T_celsius : R) : result num :=
  let T_kelvin := T_celsius + 273.15 in
  let vsat_300 := 2.5e7 in
  q <- Py.div 300 T_kelvin ;;
  p <- Py.pow q 0.5 ;;
  Val (Py.mul (Float vsat_300) p).

(** [leakage_current(Eg, T_celsius, area=1e-8)], lines 160-165. *)
Definition leakage_current (Eg T_celsius area : R) : result R :=
  let T_kelvin := T_celsius + 273.15 in
  let k := 8.617e-5 in
  q <- Py.div (- Eg) (2 * k * T_kelvin) ;;
  Val (area * 1e-8 * exp q).

Definition default_area : R := 1e-8.

(** [Power_diss = Id_current * Vds_range], line 205. *)
Definition Power_diss (Id_current : nd num) (Vds_range : nd R) : result (nd num) :=
  nd_map2 (fun i v => Py.mul i (Float v)) Id_current Vds_range.

End Realtime.

(** ** pages/2_Material_Properties.py *)

Module Materials.



End Materials.

(** ** pages/4_Graphs_and_Trends.py *)

Module GraphsTrends.

(** [breakdown_voltage_model(Eg)], lines 80-81. *)
Definition breakdown_voltage_model (Eg : R) : result num :=
  p <- Py.pow (Eg / 3.4) 2.5 ;;
  Val (Py.mul (Float 350) p).

(** [drain_current_model(mu_eff, Vgs, Vds, Vth=2.0, W=100e-6, L=1e-6,
    Cox=1.5e-6)], lines 83-93: no thermal and no bandgap factor. *)
Definition drain_current_model (mu_eff : R) (Vgs Vds : nd R)
           (Vth W L Cox : R) : result (nd R) :=
  wl <- Py.div W L ;;
  let beta := mu_eff * Cox * wl * 1e-4 in
  let Vds_sat := nd_map (fun v => v - Vth) Vgs in
  a <- nd_map2 Rmult (nd_map (fun v => v - Vth) Vgs) Vds ;;
  b <- nd_map2 Rminus a (nd_map (fun v => 0.5 * v ^ 2) Vds) ;;
  let Id_linear := nd_map (fun v => beta * v) b in
  Id_sat <- nd_map2 Rmult
              (nd_map (fun v => 0.5 * beta * (v - Vth) ^ 2) Vgs)
              (nd_map (fun v => 1 + 0.02 * v) Vds) ;;
  c <- nd_map2 Py.lt Vds Vds_sat ;;
  Id <- where_ sel_float c Id_linear Id_sat ;;
  Id' <- where_ sel_float (nd_map (fun v => Py.lt v Vth) Vgs) (Zero_d 1e-12) Id ;;
  Val (nd_map (fun v => Rmax v 1e-12) Id').

(** [mobility_temp_dep] and [bandgap_temp_dep], lines 70-78: the text of
    the real-time simulator without its comments. *)
Definition mobility_temp_dep := Realtime.mobility_temp_dep.
Definition bandgap_temp_dep := Realtime.bandgap_temp_dep.

(** A list comprehension [[f(x) for x in l]]: the first exception ends it. *)
Fixpoint for_each {A B : Type} (f : A -> result B) (l : list A) : result (list B) :=
  match l with
  | [] => Val []
  | a :: l' =>
      b <- f a ;;
      bs <- for_each f l' ;;
      Val (b :: bs)
  end.

(** The temperature sweep of lines 97-100.  Its elements are NumPy
    floats, on which [/] and [**] differ from Python's only at and below
    absolute zero; the sweep starts at 25 degrees Celsius. *)
Definition T_range : list R := linspace 25 300 80.

Definition mu_T (mu_base : R) : result (list num) :=
  for_each (mobility_temp_dep mu_base) T_range.

Definition Eg_T (Eg_base : R) : result (list R) :=
  for_each (bandgap_temp_dep Eg_base) T_range.

Definition BV_Eg_T (Eg_T : list R) : result (list num) :=
  for_each breakdown_voltage_model Eg_T.

(** [np.max] and [np.min] of a list: an empty one raises [ValueError]. *)
Definition np_max (l : list num) : result num :=
  match l with
  | [] => Raise ValueError
  | x :: xs => Val (fold_left maximum xs x)
  end.

Definition np_min (l : list R) : result R :=
  match l with
  | [] => Raise ValueError
  | x :: xs => Val (fold_left Rmin xs x)
  end.

(** A Python [str]: its Unicode code points. *)
Definition text : Type := list N.

(** The code points of an ASCII literal. *)
Definition ascii_text (s : string) : text :=
  map N_of_ascii (list_ascii_of_string s).

(** [replacements] of [SafePDF.safe_text], lines 255-261, in insertion
    order: bullet, en dash, em dash, the four curly quotes, degree,
    multiplication and division signs, Greek mu, superscript two and the
    subscript digits. *)
Definition replacements : list (N * text) :=
  [ (0x2022, ascii_text "-"); (0x2013, ascii_text "-"); (0x2014, ascii_text "-");
    (0x201c, [34]); (0x201d, [34]);
    (0x2018, ascii_text "'"); (0x2019, ascii_text "'");
    (0xb0, ascii_text " deg"); (0xd7, ascii_text "x"); (0xf7, ascii_text "/");
    (0x3bc, ascii_text "u"); (0xb2, ascii_text "2");
    (0x2080, ascii_text "0"); (0x2081, ascii_text "1"); (0x2082, ascii_text "2");
    (0x2083, ascii_text "3"); (0x2084, ascii_text "4"); (0x2085, ascii_text "5");
    (0x2086, ascii_text "6"); (0x2087, ascii_text "7"); (0x2088, ascii_text "8");
    (0x2089, ascii_text "9") ]%N.

(** [t.replace(old, new)] for a one-character [old], which every key of
    [replacements] is. *)
Definition replace (old : N) (new : text) (t : text) : text :=
  flat_map (fun c => if N.eqb c old then new else [c]) t.

(** [SafePDF.safe_text(text)], lines 251-263. *)
Definition safe_text (t : text) : text :=
  fold_left (fun acc kv => replace (fst kv) (snd kv) acc) replacements t.

(** The characters that [safe_text] replaces. *)
Definition special_characters : list N := map fst replacements.

(** The replacement text of one character, or the character itself when
    [replacements] has no entry for it: the simultaneous substitution that
    the loop of [safe_text] is compared with. *)
Definition substitute (c : N) : text :=
  match find (fun kv => N.eqb c (fst kv)) replacements with
  | Some kv => snd kv
  | None => [c]
  end.

End GraphsTrends.

(** ** One element of the drain current

    What the array expressions of [drain_current_model] compute at one
    element [Vds] when [Vgs] is a scalar, read off lines 141-156 with the
    complex-or-float [bandgap_factor] already evaluated; the lemmas below
    connect it to the array code. *)

Module Element.

Definition Id (mu_eff Vgs Vth W L Cox T_celsius : R) (bandgap_factor : num)
           (Vds : R) : num :=
  let beta := mu_eff * Cox * (W / L) * 1e-4 in
  let Vds_sat := Vgs - Vth in
  let Id_linear := beta * ((Vgs - Vth) * Vds - 0.5 * Vds ^ 2) in
  let Id_sat := 0.5 * beta * (Vgs - Vth) ^ 2 * (1 + 0.02 * Vds) in
  let thermal_factor := exp (- (T_celsius - 25) / 150) in
  sel_num (Py.lt Vgs Vth) (Float 1e-12)
    (Py.mul (Float (sel_float (Py.lt Vds Vds_sat) Id_linear Id_sat * thermal_factor))
            bandgap_factor).

Definition clamped (mu_eff Vgs Vth W L Cox T_celsius : R) (bandgap_factor : num)
           (Vds : R) : num :=
  maximum (Id mu_eff Vgs Vth W L Cox T_celsius bandgap_factor Vds) (Float 1e-12).

End Element.

(** * Properties *)

(** ** Python arithmetic *)

Section PythonArithmetic.

Lemma div_val (x y : R) : y <> 0 -> Py.div x y = Val (x / y).
Proof.
  intros Hy. unfold Py.div. destruct (Req_dec_T y 0) as [E | _]; [contradiction | reflexivity].
Qed.

Lemma div_zero (x : R) : Py.div x 0 = Raise ZeroDivisionError.
Proof.
  unfold Py.div. destruct (Req_dec_T 0 0) as [_ | N]; [reflexivity | now elim N].
Qed.

(** On a positive base [**] is the real power. *)
Lemma pow_pos (x y : R) : 0 < x -> Py.pow x y = Val (Float (Rpower x y)).
Proof.
  intros Hx. unfold Py.pow.
  destruct (Req_dec_T y 0) as [-> | Hy].
  - now rewrite Rpower_O.
  - destruct (Req_dec_T x 0) as [E | _]; [lra |].
    destruct (Rlt_dec x 0) as [N | _]; [lra | reflexivity].
Qed.

Lemma pow_zero_base (y : R) : 0 < y -> Py.pow 0 y = Val (Float 0).
Proof.
  intros Hy. unfold Py.pow.
  destruct (Req_dec_T y 0) as [E | _]; [lra |].
  destruct (Req_dec_T 0 0) as [_ | N]; [| now elim N].
  destruct (Rlt_dec y 0) as [N | _]; [lra | reflexivity].
Qed.

(** With a positive exponent [**] never raises. *)
Lemma pow_total (x y : R) : 0 < y -> exists v, Py.pow x y = Val v.
Proof.
  intros Hy. unfold Py.pow.
  destruct (Req_dec_T y 0); [eauto |].
  destruct (Req_dec_T x 0).
  - destruct (Rlt_dec y 0); [lra | eauto].
  - destruct (Rlt_dec x 0); [| eauto].
    destruct (is_integral y); eauto.
Qed.

Lemma mul_float (x y : R) : Py.mul (Float x) (Float y) = Float (x * y).
Proof. reflexivity. Qed.

Lemma lt_true (a b : R) : a < b -> Py.lt a b = true.
Proof. intros H. unfold Py.lt. destruct (Rlt_dec a b); [reflexivity | contradiction]. Qed.

Lemma lt_false (a b : R) : b <= a -> Py.lt a b = false.
Proof. intros H. unfold Py.lt. destruct (Rlt_dec a b); [lra | reflexivity]. Qed.

End PythonArithmetic.

(** ** Temperature models *)

Section TemperatureModels.

Variables (mu0 Eg0 T_C : R).
Hypothesis above_absolute_zero : -273.15 < T_C.

Let T_k : R := T_C + 273.15.

Lemma kelvin_pos : 0 < T_k.
Proof. unfold T_k. lra. Qed.

Lemma kelvin_ratio_pos : 0 < 300 / T_k.
Proof. apply Rdiv_lt_0_compat; [lra | apply kelvin_pos]. Qed.

(** The common shape of the three branches of [mobility_temp_dep]. *)
Lemma mobility_branch (n : R) :
  (q <- Py.div 300 T_k ;; p <- Py.pow q n ;; Val (Py.mul (Float mu0) p))
  = Val (Float (mu0 * Rpower (300 / T_k) n)).
Proof.
  rewrite div_val by (pose proof kelvin_pos; lra). cbn [Py.bind].
  rewrite pow_pos by apply kelvin_ratio_pos. reflexivity.
Qed.

(** Above absolute zero the mobility function is the real power 1.5. *)
Lemma realtime_mobility :
  Realtime.mobility_temp_dep mu0 T_C = Val (Float (mu0 * Rpower (300 / T_k) 1.5)).
Proof. apply mobility_branch. Qed.

Lemma varshni_branch (alpha beta : R) :
  0 < beta ->
  (q <- Py.div (alpha * T_k ^ 2) (T_k + beta) ;; Val (Eg0 - q))
  = Val (Eg0 - alpha * T_k ^ 2 / (T_k + beta)).
Proof.
  intros Hb. rewrite div_val by (pose proof kelvin_pos; lra). reflexivity.
Qed.

Lemma realtime_bandgap :
  Realtime.bandgap_temp_dep Eg0 T_C
  = Val (Eg0 - 9.09e-4 * T_k ^ 2 / (T_k + 830)).
Proof.
  unfold Realtime.bandgap_temp_dep. fold T_k.
  rewrite varshni_branch by lra. f_equal. lra.
Qed.

End TemperatureModels.

(** The Varshni term grows with the absolute temperature. *)
Lemma varshni_term_increasing (alpha beta a b : R) :
  0 < alpha -> 0 < beta -> 0 < a -> a < b ->
  alpha * a ^ 2 / (a + beta) < alpha * b ^ 2 / (b + beta).
Proof.
  intros Ha Hb H0 Hab.
  assert (Hda : 0 < a + beta) by lra.
  assert (Hdb : 0 < b + beta) by lra.
  apply Rmult_lt_reg_r with ((a + beta) * (b + beta)); [nra |].
  replace (alpha * a ^ 2 / (a + beta) * ((a + beta) * (b + beta)))
    with (alpha * a ^ 2 * (b + beta)) by (field; lra).
  replace (alpha * b ^ 2 / (b + beta) * ((a + beta) * (b + beta)))
    with (alpha * b ^ 2 * (a + beta)) by (field; lra).
  assert (Hprod : 0 < (b - a) * (a * b + beta * (a + b))).
  { apply Rmult_lt_0_compat; [lra |].
    apply Rplus_lt_0_compat; apply Rmult_lt_0_compat; lra. }
  assert (H : a ^ 2 * (b + beta) < b ^ 2 * (a + beta)).
  { apply Rlt_0_minus.
    replace (b ^ 2 * (a + beta) - a ^ 2 * (b + beta))
      with ((b - a) * (a * b + beta * (a + b))) by ring.
    exact Hprod. }
  rewrite !Rmult_assoc. apply Rmult_lt_compat_l; assumption.
Qed.

(** For a base under 1 the real power falls strictly as the exponent
    grows. *)
Lemma Rpower_exponent_decreasing (x a b : R) :
  0 < x < 1 -> a < b -> Rpower x b < Rpower x a.
Proof.
  intros [Hx0 Hx1] Hab. unfold Rpower. apply exp_increasing.
  assert (Hln : ln x < 0) by (rewrite <- ln_1; apply ln_increasing; assumption).
  assert (H : 0 < (b - a) * - ln x) by (apply Rmult_lt_0_compat; lra).
  lra.
Qed.

(** A quotient between two bounds. *)
Lemma quotient_between (n d lo hi : R) :
  0 < d -> lo * d < n -> n < hi * d -> lo < n / d < hi.
Proof.
  intros Hd Hlo Hhi. split.
  - apply Rmult_lt_reg_r with d; [assumption |].
    unfold Rdiv. rewrite Rmult_assoc, Rinv_l by lra. lra.
  - apply Rmult_lt_reg_r with d; [assumption |].
    unfold Rdiv. rewrite Rmult_assoc, Rinv_l by lra. lra.
Qed.

(** C1, as the specification has it, fails: the mobility function of
    the program takes no material and raises 300 / T_kelvin to the power
    1.5 whatever the material.  At the base mobility of SiC and 126.85
    degrees Celsius (400 K) its result is 900 * 0.75^1.5, which is neither
    the 900 * 0.75^2.0 claimed for SiC nor the 900 * 0.75^1.7 claimed for
    the materials outside GaN, AlGaN and SiC. *)
Lemma mobility_ignores_material :
  exists m : R,
    Realtime.mobility_temp_dep 900 126.85 = Val (Float m)
    /\ m = 900 * Rpower (300 / (126.85 + 273.15)) 1.5
    /\ m <> 900 * Rpower (300 / (126.85 + 273.15)) 2.0
    /\ m <> 900 * Rpower (300 / (126.85 + 273.15)) 1.7.
Proof.
  eexists. split; [apply realtime_mobility; lra |]. split; [reflexivity |].
  assert (Hx : 0 < 300 / (126.85 + 273.15) < 1).
  { replace (300 / (126.85 + 273.15)) with 0.75 by lra. lra. }
  pose proof (@Rpower_exponent_decreasing _ 1.5 2.0 Hx) as H2.
  pose proof (@Rpower_exponent_decreasing _ 1.5 1.7 Hx) as H17.
  split; [assert (Rpower (300 / (126.85 + 273.15)) 2.0
                  < Rpower (300 / (126.85 + 273.15)) 1.5) by (apply H2; lra)
         | assert (Rpower (300 / (126.85 + 273.15)) 1.7
                   < Rpower (300 / (126.85 + 273.15)) 1.5) by (apply H17; lra)];
    lra.
Qed.

(** C1, amended: for mu0 > 0 and T_C > -273.15 the mobility function
    returns mu0 * (300 / T_kelvin)^1.5 with T_kelvin = T_C + 273.15; it has
    no material argument, so the exponent is 1.5 for every material. *)
Theorem mobility_formula (mu0 T_C : R) :
  0 < mu0 -> -273.15 < T_C ->
  Realtime.mobility_temp_dep mu0 T_C
  = Val (Float (mu0 * Rpower (300 / (T_C + 273.15)) 1.5)).
Proof.
  intros _ HT. unfold Realtime.mobility_temp_dep.
  assert (Hk : 0 < T_C + 273.15) by lra.
  rewrite div_val by lra. cbn [Py.bind].
  rewrite pow_pos by (apply Rdiv_lt_0_compat; lra). reflexivity.
Qed.

Lemma mobility_formula_witness :
  Realtime.mobility_temp_dep 900 25
  = Val (Float (900 * Rpower (300 / (25 + 273.15)) 1.5)).
Proof. apply (@mobility_formula 900 25); lra. Defined.

(** C2, as the specification has it, fails: the bandgap function of the
    program takes no material and uses alpha = 9.09e-4 and beta = 830
    whatever the material.  At the base bandgap of SiC and 26.85 degrees
    Celsius (300 K) its result is 3.26 - 81.81 / 1130, which is neither the
    3.26 - 27 / 1000 claimed for SiC nor the 3.26 - 45 / 600 claimed for
    the materials outside GaN, AlGaN and SiC. *)
Lemma bandgap_ignores_material :
  exists e : R,
    Realtime.bandgap_temp_dep 3.26 26.85 = Val e
    /\ e = 3.26 - 9.09e-4 * (26.85 + 273.15) ^ 2 / (26.85 + 273.15 + 830)
    /\ e <> 3.26 - 3.0e-4 * (26.85 + 273.15) ^ 2 / (26.85 + 273.15 + 700)
    /\ e <> 3.26 - 5.0e-4 * (26.85 + 273.15) ^ 2 / (26.85 + 273.15 + 300).
Proof.
  eexists. split; [apply realtime_bandgap; lra |]. split; [reflexivity |].
  assert (Hgan : 0.072 < 9.09e-4 * (26.85 + 273.15) ^ 2 / (26.85 + 273.15 + 830) < 0.073)
    by (apply quotient_between; simpl; lra).
  assert (Hsic : 0.026 < 3.0e-4 * (26.85 + 273.15) ^ 2 / (26.85 + 273.15 + 700) < 0.028)
    by (apply quotient_between; simpl; lra).
  assert (Hoth : 0.074 < 5.0e-4 * (26.85 + 273.15) ^ 2 / (26.85 + 273.15 + 300) < 0.076)
    by (apply quotient_between; simpl; lra).
  split; lra.
Qed.

(** C2, amended: for T_C > -273.15 the bandgap function returns the
    Varshni value Eg0 - alpha * T_k^2 / (T_k + beta), T_k = T_C + 273.15,
    with alpha = 9.09e-4 and beta = 830; it has no material argument, so
    these constants serve every material.  Nothing clamps the result, which
    is negative as soon as Eg0 is below the Varshni term. *)
Theorem bandgap_formula (Eg0 T_C : R) :
  -273.15 < T_C ->
  Realtime.bandgap_temp_dep Eg0 T_C
  = Val (Eg0 - 9.09e-4 * (T_C + 273.15) ^ 2 / (T_C + 273.15 + 830))
  /\ (Eg0 < 9.09e-4 * (T_C + 273.15) ^ 2 / (T_C + 273.15 + 830) ->
      exists v : R, Realtime.bandgap_temp_dep Eg0 T_C = Val v /\ v < 0).
Proof.
  intros HT.
  assert (Hv : Realtime.bandgap_temp_dep Eg0 T_C
               = Val (Eg0 - 9.09e-4 * (T_C + 273.15) ^ 2 / (T_C + 273.15 + 830))).
  { unfold Realtime.bandgap_temp_dep. rewrite div_val by lra.
    cbn [Py.bind]. do 2 f_equal. lra. }
  split; [exact Hv |].
  intros Hlow. eexists. split; [exact Hv | lra].
Qed.

Lemma bandgap_formula_witness :
  Realtime.bandgap_temp_dep 0.1 500
  = Val (0.1 - 9.09e-4 * (500 + 273.15) ^ 2 / (500 + 273.15 + 830))
  /\ (0.1 < 9.09e-4 * (500 + 273.15) ^ 2 / (500 + 273.15 + 830) ->
      exists v : R, Realtime.bandgap_temp_dep 0.1 500 = Val v /\ v < 0).
Proof. apply (@bandgap_formula 0.1 500); lra. Defined.

(** A bandgap below zero: Eg0 = 0.1 eV at 500 degrees Celsius. *)
Example bandgap_negative :
  exists v : R, Realtime.bandgap_temp_dep 0.1 500 = Val v /\ v < 0.
Proof.
  eexists. split; [apply realtime_bandgap; lra |].
  assert (H : 0.3 < 9.09e-4 * (500 + 273.15) ^ 2 / (500 + 273.15 + 830) < 0.4)
    by (apply quotient_between; simpl; lra).
  lra.
Qed.

(** C8: for every Eg0 the bandgap function is strictly decreasing in
    temperature over [-50, 500] degrees Celsius; the function has no
    material argument, so this holds whatever the material. *)
Theorem bandgap_strictly_decreasing (Eg0 T1 T2 : R) :
  -50 <= T1 -> T1 < T2 -> T2 <= 500 ->
  exists e1 e2 : R,
    Realtime.bandgap_temp_dep Eg0 T1 = Val e1
    /\ Realtime.bandgap_temp_dep Eg0 T2 = Val e2
    /\ e1 > e2.
Proof.
  intros Hlo Hlt Hhi.
  eexists. eexists.
  split; [apply realtime_bandgap; lra |].
  split; [apply realtime_bandgap; lra |].
  pose proof (@varshni_term_increasing 9.09e-4 830 (T1 + 273.15) (T2 + 273.15)) as Hinc.
  apply Rlt_gt. apply Rplus_lt_compat_l. apply Ropp_lt_contravar.
  apply Hinc; lra.
Qed.

Lemma bandgap_strictly_decreasing_witness :
  exists e1 e2 : R,
    Realtime.bandgap_temp_dep 3.4 25 = Val e1
    /\ Realtime.bandgap_temp_dep 3.4 300 = Val e2
    /\ e1 > e2.
Proof. apply (@bandgap_strictly_decreasing 3.4 25 300); lra. Defined.

(** ** Breakdown voltage *)

Lemma not_integral_2_5 : Py.is_integral 2.5 = false.
Proof.
  unfold Py.is_integral.
  destruct (Req_dec_T 2.5 (IZR (Int_part 2.5))) as [E | _]; [| reflexivity].
  exfalso.
  assert (H : IZR 5 = IZR (2 * Int_part 2.5)) by (rewrite mult_IZR; lra).
  apply eq_IZR in H. lia.
Qed.

(** 2^2.5 is 4 * sqrt 2. *)
Lemma two_pow_2_5 : Rpower 2 2.5 = 4 * sqrt 2.
Proof.
  replace 2.5 with (INR 2 + / 2) by (simpl; lra).
  rewrite Rpower_plus, Rpower_pow, Rpower_sqrt by lra. lra.
Qed.

Lemma sqrt_2_bounds : 1.41421 < sqrt 2 < 1.41422.
Proof.
  split.
  - rewrite <- (sqrt_pow2 1.41421) by lra. apply sqrt_lt_1; lra.
  - rewrite <- (sqrt_pow2 1.41422) by lra. apply sqrt_lt_1; lra.
Qed.

(** On a positive bandgap the model is the real power law. *)
Lemma breakdown_voltage_pos (Eg thickness : R) :
  0 < Eg ->
  Realtime.breakdown_voltage_model Eg thickness
  = Val (Float (350 * Rpower (Eg / 3.4) 2.5 * (thickness / 2e-6))).
Proof.
  intros HEg. unfold Realtime.breakdown_voltage_model.
  rewrite pow_pos by (apply Rdiv_lt_0_compat; lra). reflexivity.
Qed.

(** C5: for Eg_eff > 0 and thickness > 0 the breakdown-voltage function
    returns 350 * (Eg_eff / 3.4)^2.5 * (thickness / 2e-6); doubling Eg_eff
    at a fixed thickness multiplies the result by 2^2.5, which is about
    5.657. *)
Theorem breakdown_voltage_formula (Eg thickness : R) :
  0 < Eg -> 0 < thickness ->
  Realtime.breakdown_voltage_model Eg thickness
  = Val (Float (350 * Rpower (Eg / 3.4) 2.5 * (thickness / 2e-6)))
  /\ (exists bv bv2 : R,
        Realtime.breakdown_voltage_model Eg thickness = Val (Float bv)
        /\ Realtime.breakdown_voltage_model (2 * Eg) thickness = Val (Float bv2)
        /\ bv2 = Rpower 2 2.5 * bv)
  /\ 5.6568 < Rpower 2 2.5 < 5.6569.
Proof.
  intros HEg Ht. split; [now apply breakdown_voltage_pos |]. split.
  - eexists. eexists.
    split; [now apply breakdown_voltage_pos |].
    split; [apply breakdown_voltage_pos; lra |].
    replace (2 * Eg / 3.4) with (2 * (Eg / 3.4)) by lra.
    rewrite <- Rpower_mult_distr by (try apply Rdiv_lt_0_compat; lra).
    ring.
  - rewrite two_pow_2_5. pose proof sqrt_2_bounds. lra.
Qed.

Lemma breakdown_voltage_formula_witness :
  Realtime.breakdown_voltage_model 3.4 2e-6
  = Val (Float (350 * Rpower (3.4 / 3.4) 2.5 * (2e-6 / 2e-6)))
  /\ (exists bv bv2 : R,
        Realtime.breakdown_voltage_model 3.4 2e-6 = Val (Float bv)
        /\ Realtime.breakdown_voltage_model (2 * 3.4) 2e-6 = Val (Float bv2)
        /\ bv2 = Rpower 2 2.5 * bv)
  /\ 5.6568 < Rpower 2 2.5 < 5.6569.
Proof. apply (@breakdown_voltage_formula 3.4 2e-6); lra. Defined.

(** C7, as the specification has it, fails at Eg_eff = 0: the function
    returns the number 0 and raises nothing. *)
Lemma breakdown_voltage_zero_bandgap :
  0 <= 0
  /\ Realtime.breakdown_voltage_model 0 2e-6 = Val (Float 0)
  /\ ~ (exists e : exn, Realtime.breakdown_voltage_model 0 2e-6 = Raise e).
Proof.
  assert (H : Realtime.breakdown_voltage_model 0 2e-6 = Val (Float 0)).
  { unfold Realtime.breakdown_voltage_model.
    replace (0 / 3.4) with 0 by lra.
    rewrite pow_zero_base by lra. cbn. f_equal. f_equal. lra. }
  split; [lra |]. split; [exact H |].
  intros [e He]. rewrite H in He. discriminate He.
Qed.

(** C7, amended: for Eg_eff <= 0 the breakdown-voltage function raises
    no error at all; it returns the number 0 when Eg_eff = 0 and a complex
    number when Eg_eff < 0. *)
Theorem breakdown_voltage_nonpositive_bandgap (Eg thickness : R) :
  Eg <= 0 ->
  exists v : num,
    Realtime.breakdown_voltage_model Eg thickness = Val v
    /\ (Eg = 0 -> v = Float 0)
    /\ (Eg < 0 -> exists re im : R, v = Complex re im).
Proof.
  intros HEg. unfold Realtime.breakdown_voltage_model.
  destruct (Req_dec_T Eg 0) as [-> | Hnz].
  - replace (0 / 3.4) with 0 by lra.
    rewrite pow_zero_base by lra. cbn. eexists. split; [reflexivity |]. split.
    + intros _. f_equal. lra.
    + intros H. lra.
  - assert (Hneg : Eg / 3.4 < 0) by lra.
    unfold Py.pow.
    destruct (Req_dec_T 2.5 0) as [E | _]; [lra |].
    destruct (Req_dec_T (Eg / 3.4) 0) as [E | _]; [lra |].
    destruct (Rlt_dec (Eg / 3.4) 0) as [_ | N]; [| lra].
    rewrite not_integral_2_5. cbn. eexists. split; [reflexivity |]. split.
    + intros H. contradiction.
    + intros _. eauto.
Qed.

Lemma breakdown_voltage_nonpositive_bandgap_witness :
  exists v : num,
    Realtime.breakdown_voltage_model (-1) 2e-6 = Val v
    /\ (-1 = 0 -> v = Float 0)
    /\ (-1 < 0 -> exists re im : R, v = Complex re im).
Proof. apply (@breakdown_voltage_nonpositive_bandgap (-1) 2e-6); lra. Defined.

(** ** Material table *)




(** ** Array operations *)

Section ArrayOperations.

Context {A B C D : Type}.

Lemma nd_map_map (g : A -> B) (f : B -> C) (x : nd A) :
  nd_map f (nd_map g x) = nd_map (fun v => f (g v)) x.
Proof. destruct x; cbn; [reflexivity | now rewrite map_map]. Qed.

(** A scalar on the left is broadcast over the other operand. *)
Lemma nd_map2_scalar_l (f : A -> B -> C) (a : A) (y : nd B) :
  nd_map2 f (Zero_d a) y = Val (nd_map (f a) y).
Proof. destruct y; reflexivity. Qed.

Lemma nd_map2_scalar_r (f : A -> B -> C) (x : nd A) (b : B) :
  nd_map2 f x (Zero_d b) = Val (nd_map (fun a => f a b) x).
Proof. destruct x as [a | [| a [| a' l]]]; reflexivity. Qed.

Lemma map_combine_map (f : B -> C -> D) (g : A -> B) (h : A -> C) (l : list A) :
  map (fun p => f (fst p) (snd p)) (combine (map g l) (map h l))
  = map (fun v => f (g v) (h v)) l.
Proof. induction l as [| a l IH]; cbn; [reflexivity | now rewrite IH]. Qed.

(** Two arrays computed from the same array have the same shape. *)
Lemma nd_map2_same_shape (f : B -> C -> D) (g : A -> B) (h : A -> C) (x : nd A) :
  nd_map2 f (nd_map g x) (nd_map h x) = Val (nd_map (fun v => f (g v) (h v)) x).
Proof.
  destruct x as [a | l]; [reflexivity |].
  destruct l as [| a [| b l]]; try reflexivity.
  cbn [nd_map]. unfold nd_map2.
  cbn [map]. rewrite <- !map_cons.
  rewrite !length_map, Nat.eqb_refl.
  now rewrite map_combine_map.
Qed.

End ArrayOperations.

Lemma where_same_shape {A X : Type} (sel : bool -> X -> X -> X)
      (c : A -> bool) (g h : A -> X) (x : nd A) :
  where_ sel (nd_map c x) (nd_map g x) (nd_map h x)
  = Val (nd_map (fun v => sel (c v) (g v) (h v)) x).
Proof.
  unfold where_. rewrite nd_map2_same_shape. cbn [Py.bind].
  now rewrite nd_map2_same_shape.
Qed.

Lemma where_scalar_cond {X : Type} (sel : bool -> X -> X -> X)
      (b : bool) (a : X) (y : nd X) :
  where_ sel (Zero_d b) (Zero_d a) y = Val (nd_map (fun v => sel b a v) y).
Proof.
  unfold where_. rewrite nd_map2_scalar_l. cbn [Py.bind].
  rewrite nd_map2_scalar_l, nd_map_map. reflexivity.
Qed.

(** ** Drain current *)

Section DrainCurrent.

Variables (mu_eff Vgs Eg_eff T_celsius Vth W L Cox : R).
Hypothesis channel_length : L <> 0.

(** With a scalar [Vgs] the local [Id] is [Element.Id] at every
    element of [Vds], and the function returns its clamp. *)
Lemma drain_current_Id_elementwise (Vds : nd R) :
  Realtime.drain_current_Id mu_eff (Zero_d Vgs) Vds Eg_eff T_celsius Vth W L Cox
  = (bandgap_factor <- Py.pow (Eg_eff / 3.4) 0.5 ;;
     Val (nd_map (Element.Id mu_eff Vgs Vth W L Cox T_celsius bandgap_factor) Vds)).
Proof.
  unfold Realtime.drain_current_Id.
  rewrite div_val by assumption. cbn [Py.bind nd_map].
  rewrite nd_map2_scalar_l. cbn [Py.bind].
  rewrite nd_map2_same_shape. cbn [Py.bind].
  rewrite nd_map2_scalar_l. cbn [Py.bind].
  destruct (Py.pow (Eg_eff / 3.4) 0.5) as [bf | e]; [| reflexivity].
  cbn [Py.bind].
  rewrite nd_map2_scalar_r. cbn [Py.bind].
  rewrite !nd_map_map.
  rewrite where_same_shape. cbn [Py.bind].
  rewrite nd_map_map.
  rewrite where_scalar_cond. rewrite nd_map_map.
  reflexivity.
Qed.

Lemma drain_current_elementwise (Vds : nd R) :
  Realtime.drain_current_model mu_eff (Zero_d Vgs) Vds Eg_eff T_celsius Vth W L Cox
  = (bandgap_factor <- Py.pow (Eg_eff / 3.4) 0.5 ;;
     Val (nd_map (Element.clamped mu_eff Vgs Vth W L Cox T_celsius bandgap_factor) Vds)).
Proof.
  unfold Realtime.drain_current_model.
  rewrite drain_current_Id_elementwise.
  destruct (Py.pow (Eg_eff / 3.4) 0.5) as [bf | e]; [| reflexivity].
  cbn [Py.bind]. rewrite nd_map_map. reflexivity.
Qed.

End DrainCurrent.

Lemma nd_Forall_map {A B : Type} (P : B -> Prop) (f : A -> B) (x : nd A) :
  (forall a, P (f a)) -> nd_Forall P (nd_map f x).
Proof.
  intros H. destruct x as [a | l]; cbn; [apply H |].
  apply Forall_forall. intros y Hy. apply in_map_iff in Hy.
  destruct Hy as (a & <- & _). apply H.
Qed.

(** The bandgap factor [(Eg_eff / 3.4) ** 0.5]. *)
Lemma bandgap_factor_pos (Eg_eff : R) :
  0 < Eg_eff -> Py.pow (Eg_eff / 3.4) 0.5 = Val (Float (Rpower (Eg_eff / 3.4) 0.5)).
Proof. intros H. apply pow_pos. apply Rdiv_lt_0_compat; lra. Qed.

Lemma bandgap_factor_total (Eg_eff : R) :
  exists bf : num,
    Py.pow (Eg_eff / 3.4) 0.5 = Val bf
    /\ (0 <= Eg_eff -> exists b : R, bf = Float b).
Proof.
  destruct (Rlt_dec 0 Eg_eff) as [Hpos | Hnpos].
  - rewrite bandgap_factor_pos by assumption. eauto.
  - destruct (pow_total (Eg_eff / 3.4) (y := 0.5)) as [bf Hbf]; [lra |].
    exists bf. split; [exact Hbf |].
    intros H0. assert (Eg_eff = 0) as -> by lra.
    replace (0 / 3.4) with 0 in Hbf by lra.
    rewrite pow_zero_base in Hbf by lra. injection Hbf as <-. eauto.
Qed.

Section DrainCurrentElement.

Variables (mu_eff Vgs Vth W L Cox T_celsius : R).

(** With a float bandgap factor every element is a float, clamped
    from below, and it is the floor itself under the threshold. *)
Lemma clamped_float (b Vds : R) :
  exists r : R,
    Element.clamped mu_eff Vgs Vth W L Cox T_celsius (Float b) Vds = Float r
    /\ 1e-12 <= r
    /\ (Vgs < Vth -> r = 1e-12).
Proof.
  unfold Element.clamped, Element.Id.
  cbn [Py.mul sel_num maximum].
  eexists. split; [reflexivity |]. split.
  - apply Rmax_r.
  - intros Hlt. rewrite lt_true by assumption.
    apply Rmax_left. lra.
Qed.

(** At or above the threshold the unclamped element is the branch
    value times the two factors. *)
Lemma Id_linear_region (b Vds : R) :
  Vth <= Vgs -> Vds < Vgs - Vth ->
  Element.Id mu_eff Vgs Vth W L Cox T_celsius (Float b) Vds
  = Float (mu_eff * Cox * (W / L) * 1e-4 * ((Vgs - Vth) * Vds - 0.5 * Vds ^ 2)
           * exp (- (T_celsius - 25) / 150) * b).
Proof.
  intros Hon Hlin. unfold Element.Id.
  rewrite (@lt_false Vgs Vth) by lra. rewrite (@lt_true Vds (Vgs - Vth)) by lra.
  reflexivity.
Qed.

Lemma Id_saturation_region (b Vds : R) :
  Vth <= Vgs -> Vgs - Vth <= Vds ->
  Element.Id mu_eff Vgs Vth W L Cox T_celsius (Float b) Vds
  = Float (0.5 * (mu_eff * Cox * (W / L) * 1e-4) * (Vgs - Vth) ^ 2 * (1 + 0.02 * Vds)
           * exp (- (T_celsius - 25) / 150) * b).
Proof.
  intros Hon Hsat. unfold Element.Id.
  rewrite (@lt_false Vgs Vth) by lra. rewrite (@lt_false Vds (Vgs - Vth)) by lra.
  reflexivity.
Qed.

End DrainCurrentElement.

(** C3: for valid inputs (mu_eff, Eg_eff, W, L, Cox positive, Vds >= 0,
    temperature in [-50, 500], any Vgs and Vth) every drain current
    returned is at least 1e-12 A, and it is exactly 1e-12 A when
    Vgs < Vth; Vds is a scalar or an array. *)
Theorem drain_current_floor
        (mu_eff Vgs Eg_eff T_celsius Vth W L Cox : R) (Vds : nd R) :
  0 < mu_eff -> 0 < Eg_eff -> 0 < W -> 0 < L -> 0 < Cox ->
  nd_Forall (fun v => 0 <= v) Vds ->
  -50 <= T_celsius <= 500 ->
  exists Id : nd num,
    Realtime.drain_current_model mu_eff (Zero_d Vgs) Vds Eg_eff T_celsius Vth W L Cox
    = Val Id
    /\ nd_Forall (fun y => exists r : R,
                     y = Float r /\ 1e-12 <= r /\ (Vgs < Vth -> r = 1e-12)) Id.
Proof.
  intros _ HEg _ HL _ _ _.
  rewrite drain_current_elementwise by lra.
  rewrite bandgap_factor_pos by assumption. cbn [Py.bind].
  eexists. split; [reflexivity |].
  apply nd_Forall_map. intros v. apply clamped_float.
Qed.

Lemma drain_current_floor_witness :
  exists Id : nd num,
    Realtime.drain_current_model 1500 (Zero_d 1) (One_d [0; 50; 100]) 3.4 25 2 100e-6 1e-6 1.5e-6
    = Val Id
    /\ nd_Forall (fun y => exists r : R,
                     y = Float r /\ 1e-12 <= r /\ (1 < 2 -> r = 1e-12)) Id.
Proof.
  apply (@drain_current_floor 1500 1 3.4 25 2 100e-6 1e-6 1.5e-6 (One_d [0; 50; 100]));
    try lra.
  cbn [nd_Forall]. repeat constructor; lra.
Defined.

(** C4: for Vgs >= Vth the drain current before the clamp is
    beta * ((Vgs - Vth) * Vds - 0.5 * Vds^2) when Vds < Vgs - Vth and
    0.5 * beta * (Vgs - Vth)^2 * (1 + 0.02 * Vds) otherwise, with
    beta = mu_eff * Cox * (W / L) * 1e-4, times exp (-(T_celsius - 25) / 150)
    and (Eg_eff / 3.4)^0.5; the function returns the maximum of that value
    and 1e-12. *)
Theorem drain_current_branches
        (mu_eff Vgs Vds Eg_eff T_celsius Vth W L Cox : R) :
  Vth <= Vgs -> L <> 0 -> 0 < Eg_eff ->
  forall beta thermal_factor bandgap_factor : R,
    beta = mu_eff * Cox * (W / L) * 1e-4 ->
    thermal_factor = exp (- (T_celsius - 25) / 150) ->
    bandgap_factor = Rpower (Eg_eff / 3.4) 0.5 ->
    exists Id : R,
      Realtime.drain_current_Id mu_eff (Zero_d Vgs) (Zero_d Vds) Eg_eff T_celsius Vth W L Cox
      = Val (Zero_d (Float Id))
      /\ Realtime.drain_current_model mu_eff (Zero_d Vgs) (Zero_d Vds) Eg_eff T_celsius Vth W L Cox
         = Val (Zero_d (Float (Rmax Id 1e-12)))
      /\ (Vds < Vgs - Vth ->
          Id = beta * ((Vgs - Vth) * Vds - 0.5 * Vds ^ 2)
               * thermal_factor * bandgap_factor)
      /\ (Vgs - Vth <= Vds ->
          Id = 0.5 * beta * (Vgs - Vth) ^ 2 * (1 + 0.02 * Vds)
               * thermal_factor * bandgap_factor).
Proof.
  intros Hon HL HEg beta thermal_factor bandgap_factor -> -> ->.
  unfold Realtime.drain_current_model.
  rewrite drain_current_Id_elementwise by assumption.
  rewrite bandgap_factor_pos by assumption. cbn [Py.bind nd_map].
  destruct (Rlt_dec Vds (Vgs - Vth)) as [Hlin | Hsat].
  - rewrite Id_linear_region by assumption.
    eexists. split; [reflexivity |]. split; [reflexivity |].
    split; [reflexivity | lra].
  - rewrite Id_saturation_region by lra.
    eexists. split; [reflexivity |]. split; [reflexivity |].
    split; [lra | reflexivity].
Qed.

Lemma drain_current_branches_witness :
  exists Id : R,
    Realtime.drain_current_Id 1500 (Zero_d 5) (Zero_d 1) 3.4 25 2 100e-6 1e-6 1.5e-6
    = Val (Zero_d (Float Id))
    /\ Realtime.drain_current_model 1500 (Zero_d 5) (Zero_d 1) 3.4 25 2 100e-6 1e-6 1.5e-6
       = Val (Zero_d (Float (Rmax Id 1e-12)))
    /\ (1 < 5 - 2 ->
        Id = (1500 * 1.5e-6 * (100e-6 / 1e-6) * 1e-4) * ((5 - 2) * 1 - 0.5 * 1 ^ 2)
             * exp (- (25 - 25) / 150) * Rpower (3.4 / 3.4) 0.5)
    /\ (5 - 2 <= 1 ->
        Id = 0.5 * (1500 * 1.5e-6 * (100e-6 / 1e-6) * 1e-4) * (5 - 2) ^ 2 * (1 + 0.02 * 1)
             * exp (- (25 - 25) / 150) * Rpower (3.4 / 3.4) 0.5).
Proof.
  apply (@drain_current_branches 1500 5 1 3.4 25 2 100e-6 1e-6 1.5e-6);
    try lra; reflexivity.
Defined.

(** C9: the drain-current function takes a scalar Vds and an array of
    Vds values; on an array it returns an array of the same length whose
    i-th element is what the scalar call returns at the i-th Vds, the
    other arguments being the same. *)
Theorem drain_current_vectorized
        (mu_eff Vgs Eg_eff T_celsius Vth W L Cox : R) (Vds : list R) :
  L <> 0 ->
  exists Id : list num,
    Realtime.drain_current_model mu_eff (Zero_d Vgs) (One_d Vds) Eg_eff T_celsius Vth W L Cox
    = Val (One_d Id)
    /\ length Id = length Vds
    /\ (forall (i : nat) (v : R),
          nth_error Vds i = Some v ->
          exists y : num,
            nth_error Id i = Some y
            /\ Realtime.drain_current_model mu_eff (Zero_d Vgs) (Zero_d v)
                 Eg_eff T_celsius Vth W L Cox
               = Val (Zero_d y))
    /\ (forall v : R,
          exists y : num,
            Realtime.drain_current_model mu_eff (Zero_d Vgs) (Zero_d v)
              Eg_eff T_celsius Vth W L Cox
            = Val (Zero_d y)).
Proof.
  intros HL.
  destruct (bandgap_factor_total Eg_eff) as (bf & Hbf & _).
  assert (Hscalar : forall v : R,
             Realtime.drain_current_model mu_eff (Zero_d Vgs) (Zero_d v)
               Eg_eff T_celsius Vth W L Cox
             = Val (Zero_d (Element.clamped mu_eff Vgs Vth W L Cox T_celsius bf v))).
  { intros v. rewrite drain_current_elementwise by assumption.
    rewrite Hbf. reflexivity. }
  rewrite drain_current_elementwise by assumption.
  rewrite Hbf. cbn [Py.bind nd_map].
  eexists. split; [reflexivity |]. split; [apply length_map |]. split.
  - intros i v Hv. rewrite nth_error_map, Hv. cbn [option_map].
    eexists. split; [reflexivity | apply Hscalar].
  - intros v. eexists. apply Hscalar.
Qed.

Lemma drain_current_vectorized_witness :
  exists Id : list num,
    Realtime.drain_current_model 1500 (Zero_d 5) (One_d [0; 50; 100]) 3.4 25 2 100e-6 1e-6 1.5e-6
    = Val (One_d Id)
    /\ length Id = length [0; 50; 100]
    /\ (forall (i : nat) (v : R),
          nth_error [0; 50; 100] i = Some v ->
          exists y : num,
            nth_error Id i = Some y
            /\ Realtime.drain_current_model 1500 (Zero_d 5) (Zero_d v)
                 3.4 25 2 100e-6 1e-6 1.5e-6
               = Val (Zero_d y))
    /\ (forall v : R,
          exists y : num,
            Realtime.drain_current_model 1500 (Zero_d 5) (Zero_d v)
              3.4 25 2 100e-6 1e-6 1.5e-6
            = Val (Zero_d y)).
Proof.
  apply (@drain_current_vectorized 1500 5 3.4 25 2 100e-6 1e-6 1.5e-6 [0; 50; 100]).
  lra.
Defined.

(** The drain current of the graphs page, element by element. *)
Lemma graphs_drain_current_elementwise (mu_eff Vgs Vth W L Cox : R) (Vds : nd R) :
  L <> 0 ->
  GraphsTrends.drain_current_model mu_eff (Zero_d Vgs) Vds Vth W L Cox
  = Val (nd_map
           (fun v =>
              Rmax (sel_float (Py.lt Vgs Vth) 1e-12
                      (sel_float (Py.lt v (Vgs - Vth))
                         (mu_eff * Cox * (W / L) * 1e-4 * ((Vgs - Vth) * v - 0.5 * v ^ 2))
                         (0.5 * (mu_eff * Cox * (W / L) * 1e-4) * (Vgs - Vth) ^ 2
                          * (1 + 0.02 * v))))
                   1e-12)
           Vds).
Proof.
  intros HL. unfold GraphsTrends.drain_current_model.
  rewrite div_val by assumption. cbn [Py.bind nd_map].
  rewrite nd_map2_scalar_l. cbn [Py.bind].
  rewrite nd_map2_same_shape. cbn [Py.bind].
  rewrite nd_map2_scalar_l. cbn [Py.bind].
  rewrite nd_map2_scalar_r. cbn [Py.bind].
  rewrite !nd_map_map.
  rewrite where_same_shape. cbn [Py.bind].
  rewrite where_scalar_cond. cbn [Py.bind].
  rewrite !nd_map_map. reflexivity.
Qed.

(** What the clamp returns at [Vgs = Vth], whatever the bandgap factor. *)
Lemma clamped_at_threshold (mu_eff Vth W L Cox T_celsius : R) (bf : num) (Vds : R) :
  0 <= Vds ->
  Element.Id mu_eff Vth Vth W L Cox T_celsius bf Vds
  = Py.mul (Float 0) bf
  /\ to_complex (Element.clamped mu_eff Vth Vth W L Cox T_celsius bf Vds) = (1e-12, 0)
  /\ (forall b : R,
        bf = Float b ->
        Element.Id mu_eff Vth Vth W L Cox T_celsius bf Vds = Float 0
        /\ Element.clamped mu_eff Vth Vth W L Cox T_celsius bf Vds = Float 1e-12).
Proof.
  intros HVds.
  assert (HId : Element.Id mu_eff Vth Vth W L Cox T_celsius bf Vds = Py.mul (Float 0) bf).
  { unfold Element.Id.
    rewrite (@lt_false Vth Vth) by lra. rewrite (@lt_false Vds (Vth - Vth)) by lra.
    unfold sel_float.
    replace (0.5 * (mu_eff * Cox * (W / L) * 1e-4) * (Vth - Vth) ^ 2 * (1 + 0.02 * Vds)
             * exp (- (T_celsius - 25) / 150)) with 0 by ring.
    destruct bf as [b | re im]; reflexivity. }
  assert (Hmax : Rmax 0 1e-12 = 1e-12) by (apply Rmax_right; lra).
  split; [exact HId |]. unfold Element.clamped. rewrite HId. split.
  - destruct bf as [b | re im]; cbn [Py.mul to_complex maximum].
    + rewrite Rmult_0_l, Hmax. reflexivity.
    + unfold complex_ge. cbn [fst snd].
      destruct (Rlt_dec 1e-12 (0 * re - 0 * im)) as [H | _]; [lra |].
      destruct (Req_dec_T (0 * re - 0 * im) 1e-12) as [H | _]; [lra |].
      reflexivity.
  - intros b ->. cbn [Py.mul maximum]. rewrite Rmult_0_l, Hmax. split; reflexivity.
Qed.

(** C10: for Vds >= 0 and Vgs equal to Vth the drain current is exactly
    1e-12 A: neither strict test holds, so the saturation branch is taken,
    its value is 0 before the clamp, and the clamp raises it to 1e-12;
    the same holds on the graphs page, which has no temperature or
    bandgap factor. *)
Theorem drain_current_at_threshold
        (mu_eff Vgs Vds Eg_eff T_celsius Vth W L Cox : R) :
  0 <= Vds -> Vgs = Vth -> L <> 0 ->
  Py.lt Vds (Vgs - Vth) = false
  /\ Py.lt Vgs Vth = false
  /\ (exists y : num,
        Realtime.drain_current_model mu_eff (Zero_d Vgs) (Zero_d Vds)
          Eg_eff T_celsius Vth W L Cox
        = Val (Zero_d y)
        /\ to_complex y = (1e-12, 0)
        /\ (0 <= Eg_eff ->
            y = Float 1e-12
            /\ Realtime.drain_current_Id mu_eff (Zero_d Vgs) (Zero_d Vds)
                 Eg_eff T_celsius Vth W L Cox
               = Val (Zero_d (Float 0))))
  /\ GraphsTrends.drain_current_model mu_eff (Zero_d Vgs) (Zero_d Vds) Vth W L Cox
     = Val (Zero_d 1e-12).
Proof.
  intros HVds -> HL.
  split; [apply lt_false; lra |]. split; [apply lt_false; lra |]. split.
  - destruct (bandgap_factor_total Eg_eff) as (bf & Hbf & Hfloat).
    destruct (@clamped_at_threshold mu_eff Vth W L Cox T_celsius bf Vds HVds)
      as (_ & Hc & Hf).
    rewrite drain_current_elementwise, drain_current_Id_elementwise by assumption.
    rewrite Hbf. cbn [Py.bind nd_map].
    eexists. split; [reflexivity |]. split; [exact Hc |].
    intros HEg. destruct (Hfloat HEg) as [b Hb].
    destruct (Hf b Hb) as [HId Hcl]. rewrite HId, Hcl. split; reflexivity.
  - rewrite graphs_drain_current_elementwise by assumption. cbn [nd_map].
    rewrite (@lt_false Vth Vth) by lra. rewrite (@lt_false Vds (Vth - Vth)) by lra.
    unfold sel_float. do 2 f_equal.
    apply Rmax_right.
    replace (0.5 * (mu_eff * Cox * (W / L) * 1e-4) * (Vth - Vth) ^ 2 * (1 + 0.02 * Vds))
      with 0 by ring.
    lra.
Qed.

Lemma drain_current_at_threshold_witness :
  Py.lt 10 (2 - 2) = false
  /\ Py.lt 2 2 = false
  /\ (exists y : num,
        Realtime.drain_current_model 1500 (Zero_d 2) (Zero_d 10) 3.4 25 2 100e-6 1e-6 1.5e-6
        = Val (Zero_d y)
        /\ to_complex y = (1e-12, 0)
        /\ (0 <= 3.4 ->
            y = Float 1e-12
            /\ Realtime.drain_current_Id 1500 (Zero_d 2) (Zero_d 10) 3.4 25 2 100e-6 1e-6 1.5e-6
               = Val (Zero_d (Float 0))))
  /\ GraphsTrends.drain_current_model 1500 (Zero_d 2) (Zero_d 10) 2 100e-6 1e-6 1.5e-6
     = Val (Zero_d 1e-12).
Proof.
  apply (@drain_current_at_threshold 1500 2 10 3.4 25 2 100e-6 1e-6 1.5e-6);
    [lra | reflexivity | lra].
Defined.

(** * Further properties *)

(** ** Temperature models on and off their domain *)

Lemma Rpower_pos (x y : R) : 0 < Rpower x y.
Proof. unfold Rpower. apply exp_pos. Qed.

Lemma Rpower_one_base (y : R) : Rpower 1 y = 1.
Proof. unfold Rpower. rewrite ln_1, Rmult_0_r. apply exp_0. Qed.

(** [k * y] is an integer that no multiple of [k] equals. *)
Lemma not_integral_fraction (k m : Z) (y : R) :
  IZR k * y = IZR m -> (forall z : Z, k * z <> m)%Z -> Py.is_integral y = false.
Proof.
  intros Hy Hm. unfold Py.is_integral.
  destruct (Req_dec_T y (IZR (Int_part y))) as [E | _]; [| reflexivity].
  exfalso. rewrite E, <- mult_IZR in Hy. apply eq_IZR in Hy.
  exact (Hm _ Hy).
Qed.

(** X1: above absolute zero the mobility is positive and strictly
    decreasing in temperature. *)
Theorem mobility_strictly_decreasing (mu0 T1 T2 : R) :
  0 < mu0 -> -273.15 < T1 -> T1 < T2 ->
  exists m1 m2 : R,
    Realtime.mobility_temp_dep mu0 T1 = Val (Float m1)
    /\ Realtime.mobility_temp_dep mu0 T2 = Val (Float m2)
    /\ 0 < m2 /\ m2 < m1.
Proof.
  intros Hmu H1 H12.
  eexists. eexists.
  split; [apply realtime_mobility; lra |].
  split; [apply realtime_mobility; lra |]. split.
  - apply Rmult_lt_0_compat; [assumption | apply Rpower_pos].
  - apply Rmult_lt_compat_l; [assumption |].
    apply Rlt_Rpower_l; [lra |]. split.
    + apply Rdiv_lt_0_compat; lra.
    + unfold Rdiv. apply Rmult_lt_compat_l; [lra |].
      apply Rinv_lt_contravar; [| lra].
      apply Rmult_lt_0_compat; lra.
Qed.

Lemma mobility_strictly_decreasing_witness :
  exists m1 m2 : R,
    Realtime.mobility_temp_dep 1500 25 = Val (Float m1)
    /\ Realtime.mobility_temp_dep 1500 300 = Val (Float m2)
    /\ 0 < m2 /\ m2 < m1.
Proof. apply (@mobility_strictly_decreasing 1500 25 300); lra. Defined.

(** X2: the mobility equals the base mobility at 26.85 degrees Celsius
    (300 K), exceeds it below that temperature and falls short of it
    above. *)
Theorem mobility_reference_temperature (mu0 T_C : R) :
  0 < mu0 -> -273.15 < T_C ->
  exists m : R,
    Realtime.mobility_temp_dep mu0 T_C = Val (Float m)
    /\ (T_C < 26.85 -> mu0 < m)
    /\ (T_C = 26.85 -> m = mu0)
    /\ (26.85 < T_C -> m < mu0).
Proof.
  intros Hmu HT.
  eexists. split; [apply realtime_mobility; assumption |].
  assert (Hk : 0 < T_C + 273.15) by lra.
  split; [| split].
  - intros Hlow.
    assert (H : Rpower 1 1.5 < Rpower (300 / (T_C + 273.15)) 1.5).
    { apply Rlt_Rpower_l; [lra |]. split; [lra |].
      apply Rmult_lt_reg_r with (T_C + 273.15); [assumption |].
      unfold Rdiv. rewrite Rmult_assoc, Rinv_l by lra. lra. }
    rewrite Rpower_one_base in H. nra.
  - intros ->. replace (300 / (26.85 + 273.15)) with 1 by lra.
    rewrite Rpower_one_base. lra.
  - intros Hhigh.
    assert (H : Rpower (300 / (T_C + 273.15)) 1.5 < Rpower 1 1.5).
    { apply Rlt_Rpower_l; [lra |]. split; [apply Rdiv_lt_0_compat; lra |].
      apply Rmult_lt_reg_r with (T_C + 273.15); [assumption |].
      unfold Rdiv. rewrite Rmult_assoc, Rinv_l by lra. lra. }
    rewrite Rpower_one_base in H. nra.
Qed.

Lemma mobility_reference_temperature_witness :
  exists m : R,
    Realtime.mobility_temp_dep 2000 25 = Val (Float m)
    /\ (25 < 26.85 -> 2000 < m)
    /\ (25 = 26.85 -> m = 2000)
    /\ (26.85 < 25 -> m < 2000).
Proof. apply (@mobility_reference_temperature 2000 25); lra. Defined.

(** X3: the mobility function raises exactly at absolute zero, where
    300 / T_kelvin divides by zero; at every other temperature it returns
    a value. *)
Theorem mobility_raises_only_at_absolute_zero (mu0 T_C : R) :
  (T_C = -273.15 ->
   Realtime.mobility_temp_dep mu0 T_C = Raise ZeroDivisionError)
  /\ (T_C <> -273.15 ->
      exists v : num, Realtime.mobility_temp_dep mu0 T_C = Val v).
Proof.
  unfold Realtime.mobility_temp_dep. split.
  - intros ->. replace (-273.15 + 273.15) with 0 by lra.
    rewrite div_zero. reflexivity.
  - intros HT. rewrite div_val by lra. cbn [Py.bind].
    destruct (pow_total (300 / (T_C + 273.15)) (y := 1.5)) as [p Hp]; [lra |].
    rewrite Hp. cbn [Py.bind]. eauto.
Qed.

Lemma mobility_raises_only_at_absolute_zero_witness :
  Realtime.mobility_temp_dep 1500 (-273.15) = Raise ZeroDivisionError
  /\ exists v : num, Realtime.mobility_temp_dep 1500 0 = Val v.
Proof.
  destruct (@mobility_raises_only_at_absolute_zero 1500 (-273.15)) as [H _].
  destruct (@mobility_raises_only_at_absolute_zero 1500 0) as [_ H'].
  split; [apply H; reflexivity | apply H'; lra].
Defined.

(** X4: below absolute zero no error is raised either: 300 / T_kelvin
    is negative and its power 1.5 is a complex number, which the function
    returns multiplied by mu0. *)
Theorem mobility_below_absolute_zero (mu0 T_C : R) :
  T_C < -273.15 ->
  exists re im : R,
    Realtime.mobility_temp_dep mu0 T_C = Val (Complex re im).
Proof.
  intros HT. unfold Realtime.mobility_temp_dep.
  rewrite div_val by lra. cbn [Py.bind].
  assert (Hq : 300 / (T_C + 273.15) < 0).
  { apply Ropp_lt_cancel. rewrite Ropp_0, <- Rdiv_opp_r.
    apply Rdiv_lt_0_compat; lra. }
  unfold Py.pow.
  destruct (Req_dec_T 1.5 0) as [E | _]; [lra |].
  destruct (Req_dec_T (300 / (T_C + 273.15)) 0) as [E | _]; [lra |].
  destruct (Rlt_dec (300 / (T_C + 273.15)) 0) as [_ | N]; [| contradiction].
  rewrite (@not_integral_fraction 2 3 1.5) by (lra || (intros z; lia)).
  cbn [Py.bind Py.mul to_complex]. eauto.
Qed.

Lemma mobility_below_absolute_zero_witness :
  exists re im : R,
    Realtime.mobility_temp_dep 1500 (-300) = Val (Complex re im).
Proof. apply (@mobility_below_absolute_zero 1500 (-300)); lra. Defined.

(** X5: from absolute zero upwards the effective bandgap never exceeds
    the base bandgap, and it equals it at absolute zero only. *)
Theorem bandgap_at_most_base (Eg0 T_C : R) :
  -273.15 <= T_C ->
  exists Eg : R,
    Realtime.bandgap_temp_dep Eg0 T_C = Val Eg
    /\ Eg <= Eg0
    /\ (Eg = Eg0 <-> T_C = -273.15).
Proof.
  intros HT. unfold Realtime.bandgap_temp_dep.
  rewrite div_val by lra. cbn [Py.bind].
  eexists. split; [reflexivity |].
  set (Tk := T_C + 273.15).
  assert (Hk : 0 <= Tk) by (unfold Tk; lra).
  assert (Hterm : 0 <= 0.909e-3 * Tk ^ 2 / (Tk + 830)).
  { apply Rmult_le_pos; [| left; apply Rinv_0_lt_compat; lra].
    apply Rmult_le_pos; [lra | apply pow2_ge_0]. }
  split; [lra |]. split.
  - intros Heq.
    assert (H0 : 0.909e-3 * Tk ^ 2 / (Tk + 830) = 0) by lra.
    apply Rmult_eq_compat_r with (r := Tk + 830) in H0.
    unfold Rdiv in H0. rewrite Rmult_assoc, Rinv_l, Rmult_0_l in H0 by lra.
    rewrite Rmult_1_r in H0. apply Rmult_integral in H0.
    destruct H0 as [H0 | H0]; [lra |].
    assert (HTk : Tk = 0).
    { destruct (Req_dec_T Tk 0) as [E | N]; [exact E |].
      elim (pow_nonzero Tk 2 N H0). }
    unfold Tk in HTk. lra.
  - intros HTz. assert (Tk = 0) as -> by (unfold Tk; lra).
    unfold Rdiv. rewrite pow_i by lia. lra.
Qed.

Lemma bandgap_at_most_base_witness :
  exists Eg : R,
    Realtime.bandgap_temp_dep 3.4 300 = Val Eg
    /\ Eg <= 3.4
    /\ (Eg = 3.4 <-> 300 = -273.15).
Proof. apply (@bandgap_at_most_base 3.4 300); lra. Defined.

(** ** Saturation velocity and leakage current *)

Lemma saturation_velocity_value (T_C : R) :
  -273.15 < T_C ->
  Realtime.saturation_velocity_temp T_C
  = Val (Float (2.5e7 * sqrt (300 / (T_C + 273.15)))).
Proof.
  intros HT. unfold Realtime.saturation_velocity_temp.
  rewrite div_val by lra. cbn [Py.bind].
  assert (Hq : 0 < 300 / (T_C + 273.15)) by (apply Rdiv_lt_0_compat; lra).
  rewrite pow_pos by assumption. cbn [Py.bind Py.mul].
  replace 0.5 with (/ 2) by lra. now rewrite Rpower_sqrt.
Qed.

(** X7: above absolute zero the saturation velocity is
    2.5e7 * sqrt (300 / T_kelvin): positive, strictly decreasing in
    temperature, and 2.5e7 cm/s at 300 K. *)
Theorem saturation_velocity_decreasing (T1 T2 : R) :
  -273.15 < T1 -> T1 < T2 ->
  exists v1 v2 : R,
    Realtime.saturation_velocity_temp T1 = Val (Float v1)
    /\ Realtime.saturation_velocity_temp T2 = Val (Float v2)
    /\ v1 = 2.5e7 * sqrt (300 / (T1 + 273.15))
    /\ 0 < v2 /\ v2 < v1
    /\ Realtime.saturation_velocity_temp 26.85 = Val (Float 2.5e7).
Proof.
  intros H1 H12.
  assert (Hq2 : 0 < 300 / (T2 + 273.15)) by (apply Rdiv_lt_0_compat; lra).
  eexists. eexists.
  split; [apply saturation_velocity_value; lra |].
  split; [apply saturation_velocity_value; lra |].
  split; [reflexivity |]. split; [| split].
  - apply Rmult_lt_0_compat; [lra | now apply sqrt_lt_R0].
  - apply Rmult_lt_compat_l; [lra |].
    apply sqrt_lt_1_alt. split; [lra |].
    unfold Rdiv. apply Rmult_lt_compat_l; [lra |].
    apply Rinv_lt_contravar; [| lra].
    apply Rmult_lt_0_compat; lra.
  - rewrite saturation_velocity_value by lra.
    replace (300 / (26.85 + 273.15)) with 1 by lra.
    rewrite sqrt_1. do 2 f_equal. lra.
Qed.

Lemma saturation_velocity_decreasing_witness :
  exists v1 v2 : R,
    Realtime.saturation_velocity_temp 25 = Val (Float v1)
    /\ Realtime.saturation_velocity_temp 300 = Val (Float v2)
    /\ v1 = 2.5e7 * sqrt (300 / (25 + 273.15))
    /\ 0 < v2 /\ v2 < v1
    /\ Realtime.saturation_velocity_temp 26.85 = Val (Float 2.5e7).
Proof. apply (@saturation_velocity_decreasing 25 300); lra. Defined.

Lemma leakage_current_value (Eg T_C area : R) :
  T_C <> -273.15 ->
  Realtime.leakage_current Eg T_C area
  = Val (area * 1e-8 * exp (- Eg / (2 * 8.617e-5 * (T_C + 273.15)))).
Proof.
  intros HT. unfold Realtime.leakage_current.
  rewrite div_val by lra. reflexivity.
Qed.

(** The exponent -Eg / (2 k T) grows with T for a positive bandgap. *)
Lemma boltzmann_exponent_increasing (Eg a b : R) :
  0 < Eg -> 0 < a -> a < b ->
  - Eg / (2 * 8.617e-5 * a) < - Eg / (2 * 8.617e-5 * b) < 0.
Proof.
  intros HEg Ha Hab.
  assert (Hinv : / (2 * 8.617e-5 * b) < / (2 * 8.617e-5 * a)).
  { apply Rinv_lt_contravar; [| lra].
    apply Rmult_lt_0_compat; lra. }
  assert (Hib : 0 < / (2 * 8.617e-5 * b)) by (apply Rinv_0_lt_compat; lra).
  unfold Rdiv. split; nra.
Qed.

(** X8: for a positive bandgap and area the leakage current is
    positive, below area * 1e-8, and strictly increasing in temperature
    above absolute zero. *)
Theorem leakage_current_increasing_in_temperature (Eg T1 T2 area : R) :
  0 < Eg -> 0 < area -> -273.15 < T1 -> T1 < T2 ->
  exists i1 i2 : R,
    Realtime.leakage_current Eg T1 area = Val i1
    /\ Realtime.leakage_current Eg T2 area = Val i2
    /\ 0 < i1 /\ i1 < i2 /\ i2 < area * 1e-8.
Proof.
  intros HEg Harea H1 H12.
  rewrite !leakage_current_value by lra.
  eexists. eexists. split; [reflexivity |]. split; [reflexivity |].
  destruct (@boltzmann_exponent_increasing Eg (T1 + 273.15) (T2 + 273.15))
    as [Hinc Hneg]; try lra.
  assert (Hscale : 0 < area * 1e-8) by (apply Rmult_lt_0_compat; lra).
  split; [| split].
  - apply Rmult_lt_0_compat; [assumption | apply exp_pos].
  - apply Rmult_lt_compat_l; [assumption | now apply exp_increasing].
  - rewrite <- (Rmult_1_r (area * 1e-8)) at 2.
    apply Rmult_lt_compat_l; [assumption |].
    rewrite <- exp_0. now apply exp_increasing.
Qed.

Lemma leakage_current_increasing_in_temperature_witness :
  exists i1 i2 : R,
    Realtime.leakage_current 3.4 25 1e-8 = Val i1
    /\ Realtime.leakage_current 3.4 300 1e-8 = Val i2
    /\ 0 < i1 /\ i1 < i2 /\ i2 < 1e-8 * 1e-8.
Proof.
  apply (@leakage_current_increasing_in_temperature 3.4 25 300 1e-8); lra.
Defined.

(** X9: above absolute zero the leakage current is strictly decreasing
    in the bandgap and proportional to the area. *)
Theorem leakage_current_decreasing_in_bandgap (Eg1 Eg2 T_C area scale : R) :
  0 < area -> -273.15 < T_C -> Eg1 < Eg2 ->
  exists i1 i2 i1' : R,
    Realtime.leakage_current Eg1 T_C area = Val i1
    /\ Realtime.leakage_current Eg2 T_C area = Val i2
    /\ Realtime.leakage_current Eg1 T_C (scale * area) = Val i1'
    /\ 0 < i2 /\ i2 < i1
    /\ i1' = scale * i1.
Proof.
  intros Harea HT HEg.
  rewrite !leakage_current_value by lra.
  eexists. eexists. eexists.
  split; [reflexivity |]. split; [reflexivity |]. split; [reflexivity |].
  assert (Hscale : 0 < area * 1e-8) by (apply Rmult_lt_0_compat; lra).
  assert (Hinv : 0 < / (2 * 8.617e-5 * (T_C + 273.15))).
  { apply Rinv_0_lt_compat. apply Rmult_lt_0_compat; lra. }
  split; [| split].
  - apply Rmult_lt_0_compat; [assumption | apply exp_pos].
  - apply Rmult_lt_compat_l; [assumption |].
    apply exp_increasing. unfold Rdiv. nra.
  - ring.
Qed.

Lemma leakage_current_decreasing_in_bandgap_witness :
  exists i1 i2 i1' : R,
    Realtime.leakage_current 1.12 25 1e-8 = Val i1
    /\ Realtime.leakage_current 3.4 25 1e-8 = Val i2
    /\ Realtime.leakage_current 1.12 25 (2 * 1e-8) = Val i1'
    /\ 0 < i2 /\ i2 < i1
    /\ i1' = 2 * i1.
Proof.
  apply (@leakage_current_decreasing_in_bandgap 1.12 3.4 25 1e-8 2); lra.
Defined.

(** X10: with the default area and a positive bandgap the leakage
    current stays below 1e-16 A, so the test [I_leak < 1e-6] that labels
    it as low always succeeds and the two other labels are never shown. *)
Theorem leakage_current_always_low (Eg T_C : R) :
  0 < Eg -> -273.15 < T_C ->
  exists I_leak : R,
    Realtime.leakage_current Eg T_C Realtime.default_area = Val I_leak
    /\ 0 < I_leak /\ I_leak < 1e-16
    /\ Py.lt I_leak 1e-6 = true.
Proof.
  intros HEg HT. unfold Realtime.default_area.
  rewrite leakage_current_value by lra.
  eexists. split; [reflexivity |].
  assert (Hneg : - Eg / (2 * 8.617e-5 * (T_C + 273.15)) < 0).
  { assert (0 < / (2 * 8.617e-5 * (T_C + 273.15))).
    { apply Rinv_0_lt_compat. apply Rmult_lt_0_compat; lra. }
    unfold Rdiv. nra. }
  pose proof (exp_pos (- Eg / (2 * 8.617e-5 * (T_C + 273.15)))) as Hpos.
  pose proof (exp_increasing _ _ Hneg) as Hlt. rewrite exp_0 in Hlt.
  assert (Hbound : 1e-8 * 1e-8 * exp (- Eg / (2 * 8.617e-5 * (T_C + 273.15))) < 1e-16)
    by nra.
  split; [nra |]. split; [exact Hbound |].
  apply lt_true. lra.
Qed.

Lemma leakage_current_always_low_witness :
  exists I_leak : R,
    Realtime.leakage_current 3.4 300 Realtime.default_area = Val I_leak
    /\ 0 < I_leak /\ I_leak < 1e-16
    /\ Py.lt I_leak 1e-6 = true.
Proof. apply (@leakage_current_always_low 3.4 300); lra. Defined.

(** ** Breakdown voltage, continued *)

(** X11: on positive bandgaps the breakdown voltage is positive,
    strictly increasing in the bandgap, and proportional to the
    thickness. *)
Theorem breakdown_voltage_increasing (Eg1 Eg2 thickness scale : R) :
  0 < Eg1 -> Eg1 < Eg2 -> 0 < thickness ->
  exists bv1 bv2 bv1' : R,
    Realtime.breakdown_voltage_model Eg1 thickness = Val (Float bv1)
    /\ Realtime.breakdown_voltage_model Eg2 thickness = Val (Float bv2)
    /\ Realtime.breakdown_voltage_model Eg1 (scale * thickness) = Val (Float bv1')
    /\ 0 < bv1 /\ bv1 < bv2
    /\ bv1' = scale * bv1.
Proof.
  intros H1 H12 Ht.
  rewrite !breakdown_voltage_pos by lra.
  eexists. eexists. eexists.
  split; [reflexivity |]. split; [reflexivity |]. split; [reflexivity |].
  assert (Hr : 0 < thickness / 2e-6) by (apply Rdiv_lt_0_compat; lra).
  pose proof (Rpower_pos (Eg1 / 3.4) 2.5) as Hp1.
  assert (Hp : Rpower (Eg1 / 3.4) 2.5 < Rpower (Eg2 / 3.4) 2.5).
  { apply Rlt_Rpower_l; lra. }
  split; [| split].
  - apply Rmult_lt_0_compat; [lra | assumption].
  - apply Rmult_lt_compat_r; [assumption | lra].
  - unfold Rdiv. ring.
Qed.

Lemma breakdown_voltage_increasing_witness :
  exists bv1 bv2 bv1' : R,
    Realtime.breakdown_voltage_model 3.26 2e-6 = Val (Float bv1)
    /\ Realtime.breakdown_voltage_model 4.0 2e-6 = Val (Float bv2)
    /\ Realtime.breakdown_voltage_model 3.26 (2 * 2e-6) = Val (Float bv1')
    /\ 0 < bv1 /\ bv1 < bv2
    /\ bv1' = 2 * bv1.
Proof. apply (@breakdown_voltage_increasing 3.26 4.0 2e-6 2); lra. Defined.

(** X12: composed with the bandgap model (lines 194-195), the predicted
    breakdown voltage falls strictly as the temperature rises, for as long
    as the effective bandgap at the higher temperature is positive. *)
Theorem breakdown_voltage_falls_with_temperature (Eg0 T1 T2 : R) :
  -273.15 < T1 -> T1 < T2 ->
  (exists e2 : R, Realtime.bandgap_temp_dep Eg0 T2 = Val e2 /\ 0 < e2) ->
  exists e1 e2 bv1 bv2 : R,
    Realtime.bandgap_temp_dep Eg0 T1 = Val e1
    /\ Realtime.bandgap_temp_dep Eg0 T2 = Val e2
    /\ Realtime.breakdown_voltage_model e1 Realtime.default_thickness
       = Val (Float bv1)
    /\ Realtime.breakdown_voltage_model e2 Realtime.default_thickness
       = Val (Float bv2)
    /\ 0 < bv2 /\ bv2 < bv1.
Proof.
  intros H1 H12 (e2' & He2' & Hpos).
  assert (He1 : Realtime.bandgap_temp_dep Eg0 T1
                = Val (Eg0 - 9.09e-4 * (T1 + 273.15) ^ 2 / (T1 + 273.15 + 830)))
    by (apply realtime_bandgap; lra).
  assert (He2 : Realtime.bandgap_temp_dep Eg0 T2
                = Val (Eg0 - 9.09e-4 * (T2 + 273.15) ^ 2 / (T2 + 273.15 + 830)))
    by (apply realtime_bandgap; lra).
  rewrite He2 in He2'. injection He2' as <-.
  pose proof (@varshni_term_increasing 9.09e-4 830 (T1 + 273.15) (T2 + 273.15)) as Hinc.
  assert (Hlt : 9.09e-4 * (T1 + 273.15) ^ 2 / (T1 + 273.15 + 830)
                < 9.09e-4 * (T2 + 273.15) ^ 2 / (T2 + 273.15 + 830))
    by (apply Hinc; lra).
  eexists. eexists. eexists. eexists.
  split; [exact He1 |]. split; [exact He2 |].
  split; [apply breakdown_voltage_pos; lra |].
  split; [apply breakdown_voltage_pos; lra |].
  unfold Realtime.default_thickness.
  replace (2e-6 / 2e-6) with 1 by lra. rewrite !Rmult_1_r.
  pose proof (Rpower_pos ((Eg0 - 9.09e-4 * (T2 + 273.15) ^ 2 / (T2 + 273.15 + 830)) / 3.4)
                2.5) as Hp2.
  assert (Hp : Rpower ((Eg0 - 9.09e-4 * (T2 + 273.15) ^ 2 / (T2 + 273.15 + 830)) / 3.4) 2.5
               < Rpower ((Eg0 - 9.09e-4 * (T1 + 273.15) ^ 2 / (T1 + 273.15 + 830)) / 3.4) 2.5).
  { apply Rlt_Rpower_l; lra. }
  lra.
Qed.

Lemma breakdown_voltage_falls_with_temperature_witness :
  exists e1 e2 bv1 bv2 : R,
    Realtime.bandgap_temp_dep 3.4 25 = Val e1
    /\ Realtime.bandgap_temp_dep 3.4 300 = Val e2
    /\ Realtime.breakdown_voltage_model e1 Realtime.default_thickness
       = Val (Float bv1)
    /\ Realtime.breakdown_voltage_model e2 Realtime.default_thickness
       = Val (Float bv2)
    /\ 0 < bv2 /\ bv2 < bv1.
Proof.
  apply (@breakdown_voltage_falls_with_temperature 3.4 25 300); try lra.
  eexists. split; [apply realtime_bandgap; lra |].
  assert (H : 0.2 < 9.09e-4 * (300 + 273.15) ^ 2 / (300 + 273.15 + 830) < 0.3)
    by (apply quotient_between; simpl; lra).
  lra.
Defined.

(** ** Drain current, continued *)

Lemma nd_map_ext {A B : Type} (f g : A -> B) (x : nd A) :
  (forall a, f a = g a) -> nd_map f x = nd_map g x.
Proof.
  intros H. destruct x as [a | l]; cbn; [now rewrite H |].
  f_equal. apply map_ext. exact H.
Qed.

Lemma where_scalar_then {A X : Type} (sel : bool -> X -> X -> X)
      (c : A -> bool) (a : X) (h : A -> X) (x : nd A) :
  where_ sel (nd_map c x) (Zero_d a) (nd_map h x)
  = Val (nd_map (fun v => sel (c v) a (h v)) x).
Proof.
  unfold where_. rewrite nd_map2_scalar_l. cbn [Py.bind].
  rewrite nd_map_map. now rewrite nd_map2_same_shape.
Qed.

(** X13: with a scalar gate voltage the drain-current function fails
    exactly when the channel length is zero, with the ZeroDivisionError of
    W / L; for every other input, of either shape, it returns a value of
    the shape of Vds. *)
Theorem drain_current_raises_only_for_zero_length
        (mu_eff Vgs Eg_eff T_celsius Vth W L Cox : R) (Vds : nd R) :
  (L = 0 ->
   Realtime.drain_current_model mu_eff (Zero_d Vgs) Vds Eg_eff T_celsius Vth W L Cox
   = Raise ZeroDivisionError)
  /\ (L <> 0 ->
      exists f : R -> num,
        Realtime.drain_current_model mu_eff (Zero_d Vgs) Vds Eg_eff T_celsius Vth W L Cox
        = Val (nd_map f Vds)).
Proof.
  split.
  - intros ->. unfold Realtime.drain_current_model, Realtime.drain_current_Id.
    rewrite div_zero. reflexivity.
  - intros HL. rewrite drain_current_elementwise by assumption.
    destruct (bandgap_factor_total Eg_eff) as (bf & Hbf & _).
    rewrite Hbf. cbn [Py.bind]. eauto.
Qed.

Lemma drain_current_raises_only_for_zero_length_witness :
  Realtime.drain_current_model 1500 (Zero_d 5) (One_d [0; 10]) 3.4 25 2 100e-6 0 1.5e-6
  = Raise ZeroDivisionError
  /\ exists f : R -> num,
       Realtime.drain_current_model 1500 (Zero_d 5) (One_d [0; 10]) 3.4 25 2 100e-6 1e-6 1.5e-6
       = Val (nd_map f (One_d [0; 10])).
Proof.
  split.
  - apply (@drain_current_raises_only_for_zero_length
             1500 5 3.4 25 2 100e-6 0 1.5e-6 (One_d [0; 10])).
    reflexivity.
  - apply (@drain_current_raises_only_for_zero_length
             1500 5 3.4 25 2 100e-6 1e-6 1.5e-6 (One_d [0; 10])).
    lra.
Defined.

(** The clamped element for a float bandgap factor, as one real number. *)
Lemma clamped_float_value (mu_eff Vgs Vth W L Cox T_celsius b Vds : R) :
  Element.clamped mu_eff Vgs Vth W L Cox T_celsius (Float b) Vds
  = Float (Rmax
             (if Py.lt Vgs Vth then 1e-12
              else sel_float (Py.lt Vds (Vgs - Vth))
                     (mu_eff * Cox * (W / L) * 1e-4 * ((Vgs - Vth) * Vds - 0.5 * Vds ^ 2))
                     (0.5 * (mu_eff * Cox * (W / L) * 1e-4) * (Vgs - Vth) ^ 2
                      * (1 + 0.02 * Vds))
                   * exp (- (T_celsius - 25) / 150) * b)
             1e-12).
Proof. reflexivity. Qed.

Lemma bandgap_factor_nonneg (Eg_eff : R) :
  0 <= Eg_eff ->
  exists b : R, Py.pow (Eg_eff / 3.4) 0.5 = Val (Float b) /\ 0 <= b.
Proof.
  intros H. destruct (Rlt_dec 0 Eg_eff) as [Hpos | Hz].
  - rewrite bandgap_factor_pos by assumption.
    eexists. split; [reflexivity | left; apply Rpower_pos].
  - assert (Eg_eff = 0) as -> by lra.
    replace (0 / 3.4) with 0 by lra. rewrite pow_zero_base by lra.
    eexists. split; [reflexivity | lra].
Qed.

(** X14: at zero drain voltage the drain current is the 1e-12 A floor
    for every gate voltage, on, at or under the threshold. *)
Theorem drain_current_zero_at_zero_Vds
        (mu_eff Vgs Eg_eff T_celsius Vth W L Cox : R) :
  L <> 0 -> 0 <= Eg_eff ->
  Realtime.drain_current_model mu_eff (Zero_d Vgs) (Zero_d 0) Eg_eff T_celsius Vth W L Cox
  = Val (Zero_d (Float 1e-12)).
Proof.
  intros HL HEg. rewrite drain_current_elementwise by assumption.
  destruct (bandgap_factor_nonneg HEg) as (b & Hb & _).
  rewrite Hb. cbn [Py.bind nd_map]. rewrite clamped_float_value.
  do 3 f_equal. apply Rmax_right.
  destruct (Rlt_dec Vgs Vth) as [Hoff | Hon].
  - rewrite lt_true by assumption. lra.
  - rewrite (@lt_false Vgs Vth) by lra.
    destruct (Rlt_dec 0 (Vgs - Vth)) as [Hlin | Hsat].
    + rewrite lt_true by assumption. unfold sel_float.
      replace (mu_eff * Cox * (W / L) * 1e-4 * ((Vgs - Vth) * 0 - 0.5 * 0 ^ 2)
               * exp (- (T_celsius - 25) / 150) * b) with 0 by ring.
      lra.
    + rewrite (@lt_false 0 (Vgs - Vth)) by lra. unfold sel_float.
      assert (Vgs - Vth = 0) as -> by lra.
      replace (0.5 * (mu_eff * Cox * (W / L) * 1e-4) * 0 ^ 2 * (1 + 0.02 * 0)
               * exp (- (T_celsius - 25) / 150) * b) with 0 by ring.
      lra.
Qed.

Lemma drain_current_zero_at_zero_Vds_witness :
  Realtime.drain_current_model 1500 (Zero_d 5) (Zero_d 0) 3.4 25 2 100e-6 1e-6 1.5e-6
  = Val (Zero_d (Float 1e-12)).
Proof.
  apply (@drain_current_zero_at_zero_Vds 1500 5 3.4 25 2 100e-6 1e-6 1.5e-6); lra.
Defined.

(** The two branch values are ordered along Vds. *)
Lemma branch_nondecreasing (beta g v1 v2 : R) :
  0 <= beta -> 0 <= g -> v1 <= v2 ->
  sel_float (Py.lt v1 g) (beta * (g * v1 - 0.5 * v1 ^ 2))
            (0.5 * beta * g ^ 2 * (1 + 0.02 * v1))
  <= sel_float (Py.lt v2 g) (beta * (g * v2 - 0.5 * v2 ^ 2))
               (0.5 * beta * g ^ 2 * (1 + 0.02 * v2)).
Proof.
  intros Hb Hg H12. unfold sel_float, Py.lt.
  destruct (Rlt_dec v1 g) as [L1 | S1]; destruct (Rlt_dec v2 g) as [L2 | S2].
  - apply Rminus_le.
    replace (beta * (g * v1 - 0.5 * v1 ^ 2) - beta * (g * v2 - 0.5 * v2 ^ 2))
      with (- (beta * ((v2 - v1) * (g - 0.5 * (v1 + v2))))) by nra.
    assert (0 <= (v2 - v1) * (g - 0.5 * (v1 + v2))) by (apply Rmult_le_pos; lra).
    assert (0 <= beta * ((v2 - v1) * (g - 0.5 * (v1 + v2))))
      by (apply Rmult_le_pos; assumption).
    lra.
  - apply Rle_trans with (0.5 * beta * g ^ 2).
    + apply Rminus_le.
      replace (beta * (g * v1 - 0.5 * v1 ^ 2) - 0.5 * beta * g ^ 2)
        with (- (0.5 * beta * (g - v1) ^ 2)) by nra.
      assert (0 <= 0.5 * beta * (g - v1) ^ 2).
      { apply Rmult_le_pos; [lra | apply pow2_ge_0]. }
      lra.
    + assert (Hc : 0 <= 0.5 * beta * g ^ 2).
      { apply Rmult_le_pos; [lra | apply pow2_ge_0]. }
      assert (0 <= 0.5 * beta * g ^ 2 * (0.02 * v2)).
      { apply Rmult_le_pos; [assumption | lra]. }
      lra.
  - lra.
  - assert (Hc : 0 <= 0.5 * beta * g ^ 2).
    { apply Rmult_le_pos; [lra | apply pow2_ge_0]. }
    assert (0 <= 0.5 * beta * g ^ 2 * (0.02 * (v2 - v1))).
    { apply Rmult_le_pos; [assumption | lra]. }
    lra.
Qed.

(** X15: for a non-negative mobility, oxide capacitance and width, a
    positive length and a non-negative bandgap, the drain current never
    decreases when the drain voltage grows. *)
Theorem drain_current_nondecreasing_in_Vds
        (mu_eff Vgs Eg_eff T_celsius Vth W L Cox Vds1 Vds2 : R) :
  0 <= mu_eff -> 0 <= Cox -> 0 <= W -> 0 < L -> 0 <= Eg_eff ->
  Vds1 <= Vds2 ->
  exists i1 i2 : R,
    Realtime.drain_current_model mu_eff (Zero_d Vgs) (Zero_d Vds1)
      Eg_eff T_celsius Vth W L Cox = Val (Zero_d (Float i1))
    /\ Realtime.drain_current_model mu_eff (Zero_d Vgs) (Zero_d Vds2)
         Eg_eff T_celsius Vth W L Cox = Val (Zero_d (Float i2))
    /\ i1 <= i2.
Proof.
  intros Hmu HCox HW HL HEg H12.
  rewrite !drain_current_elementwise by lra.
  destruct (bandgap_factor_nonneg HEg) as (b & Hb & Hb0).
  rewrite Hb. cbn [Py.bind nd_map]. rewrite !clamped_float_value.
  eexists. eexists. split; [reflexivity |]. split; [reflexivity |].
  apply Rle_max_compat_r.
  destruct (Rlt_dec Vgs Vth) as [Hoff | Hon].
  - rewrite lt_true by assumption. lra.
  - rewrite (@lt_false Vgs Vth) by lra.
    assert (Hbeta : 0 <= mu_eff * Cox * (W / L) * 1e-4).
    { apply Rmult_le_pos; [| lra].
      apply Rmult_le_pos; [apply Rmult_le_pos; assumption |].
      apply Rmult_le_pos; [assumption | left; apply Rinv_0_lt_compat; lra]. }
    pose proof (exp_pos (- (T_celsius - 25) / 150)) as Hth.
    pose proof (@branch_nondecreasing (mu_eff * Cox * (W / L) * 1e-4) (Vgs - Vth)
                  Vds1 Vds2 Hbeta) as Hbr.
    apply Rmult_le_compat_r; [assumption |].
    apply Rmult_le_compat_r; [lra |].
    apply Hbr; lra.
Qed.

Lemma drain_current_nondecreasing_in_Vds_witness :
  exists i1 i2 : R,
    Realtime.drain_current_model 1500 (Zero_d 5) (Zero_d 1)
      3.4 25 2 100e-6 1e-6 1.5e-6 = Val (Zero_d (Float i1))
    /\ Realtime.drain_current_model 1500 (Zero_d 5) (Zero_d 50)
         3.4 25 2 100e-6 1e-6 1.5e-6 = Val (Zero_d (Float i2))
    /\ i1 <= i2.
Proof.
  apply (@drain_current_nondecreasing_in_Vds 1500 5 3.4 25 2 100e-6 1e-6 1.5e-6 1 50);
    lra.
Defined.

(** With a scalar drain voltage and a gate voltage of either shape, the
    function is the clamped element at every gate voltage. *)
Lemma drain_current_elementwise_in_Vgs
      (mu_eff Vds Eg_eff T_celsius Vth W L Cox : R) (Vgs : nd R) :
  L <> 0 ->
  Realtime.drain_current_model mu_eff Vgs (Zero_d Vds) Eg_eff T_celsius Vth W L Cox
  = (bandgap_factor <- Py.pow (Eg_eff / 3.4) 0.5 ;;
     Val (nd_map (fun v => Element.clamped mu_eff v Vth W L Cox T_celsius
                             bandgap_factor Vds) Vgs)).
Proof.
  intros HL. unfold Realtime.drain_current_model, Realtime.drain_current_Id.
  rewrite div_val by assumption. cbn [Py.bind nd_map].
  rewrite nd_map2_scalar_r. cbn [Py.bind].
  rewrite nd_map2_scalar_r. cbn [Py.bind].
  rewrite nd_map2_scalar_r. cbn [Py.bind].
  destruct (Py.pow (Eg_eff / 3.4) 0.5) as [bf | e]; [| reflexivity].
  cbn [Py.bind].
  rewrite nd_map2_scalar_l. cbn [Py.bind].
  rewrite !nd_map_map.
  rewrite where_same_shape. cbn [Py.bind].
  rewrite nd_map_map.
  rewrite where_scalar_then. cbn [Py.bind].
  rewrite nd_map_map. reflexivity.
Qed.

(** X16: the function is vectorized over the gate voltage as well: on
    an array of Vgs values and a scalar Vds (the transconductance sweep) it
    returns an array of the same length whose i-th element is the result
    of the scalar call at the i-th Vgs. *)
Theorem drain_current_vectorized_in_Vgs
        (mu_eff Vds Eg_eff T_celsius Vth W L Cox : R) (Vgs : list R) :
  L <> 0 ->
  exists Id : list num,
    Realtime.drain_current_model mu_eff (One_d Vgs) (Zero_d Vds) Eg_eff T_celsius Vth W L Cox
    = Val (One_d Id)
    /\ length Id = length Vgs
    /\ (forall (i : nat) (v : R),
          nth_error Vgs i = Some v ->
          exists y : num,
            nth_error Id i = Some y
            /\ Realtime.drain_current_model mu_eff (Zero_d v) (Zero_d Vds)
                 Eg_eff T_celsius Vth W L Cox
               = Val (Zero_d y)).
Proof.
  intros HL.
  destruct (bandgap_factor_total Eg_eff) as (bf & Hbf & _).
  rewrite drain_current_elementwise_in_Vgs by assumption.
  rewrite Hbf. cbn [Py.bind nd_map].
  eexists. split; [reflexivity |]. split; [apply length_map |].
  intros i v Hv. rewrite nth_error_map, Hv. cbn [option_map].
  eexists. split; [reflexivity |].
  rewrite drain_current_elementwise_in_Vgs by assumption.
  rewrite Hbf. reflexivity.
Qed.

Lemma drain_current_vectorized_in_Vgs_witness :
  exists Id : list num,
    Realtime.drain_current_model 1500 (One_d [0; 5; 10]) (Zero_d 5) 3.4 25 2 100e-6 1e-6 1.5e-6
    = Val (One_d Id)
    /\ length Id = length [0; 5; 10]
    /\ (forall (i : nat) (v : R),
          nth_error [0; 5; 10] i = Some v ->
          exists y : num,
            nth_error Id i = Some y
            /\ Realtime.drain_current_model 1500 (Zero_d v) (Zero_d 5)
                 3.4 25 2 100e-6 1e-6 1.5e-6
               = Val (Zero_d y)).
Proof.
  apply (@drain_current_vectorized_in_Vgs 1500 5 3.4 25 2 100e-6 1e-6 1.5e-6 [0; 5; 10]).
  lra.
Defined.

Lemma nd_map2_shape_mismatch {A B C : Type} (f : A -> B -> C)
      (l1 : list A) (l2 : list B) :
  length l1 <> length l2 -> length l1 <> 1%nat -> length l2 <> 1%nat ->
  nd_map2 f (One_d l1) (One_d l2) = Raise ValueError.
Proof.
  intros Hne H1 H2. unfold nd_map2.
  destruct l1 as [| a [| a' l1]]; destruct l2 as [| b [| b' l2]];
    cbn [length] in *; try congruence; try reflexivity.
  destruct (Nat.eqb_spec (S (S (length l1))) (S (S (length l2)))) as [E | _];
    [congruence | reflexivity].
Qed.

(** X17: two arrays that cannot be broadcast together (different
    lengths, neither of them 1) make the function raise ValueError. *)
Theorem drain_current_shape_mismatch
        (mu_eff Eg_eff T_celsius Vth W L Cox : R) (Vgs Vds : list R) :
  L <> 0 ->
  length Vgs <> length Vds -> length Vgs <> 1%nat -> length Vds <> 1%nat ->
  Realtime.drain_current_model mu_eff (One_d Vgs) (One_d Vds) Eg_eff T_celsius Vth W L Cox
  = Raise ValueError.
Proof.
  intros HL Hne H1 H2.
  unfold Realtime.drain_current_model, Realtime.drain_current_Id.
  rewrite div_val by assumption. cbn [Py.bind nd_map].
  rewrite nd_map2_shape_mismatch; [reflexivity | | |]; rewrite ?length_map; assumption.
Qed.

Lemma drain_current_shape_mismatch_witness :
  Realtime.drain_current_model 1500 (One_d [3; 4; 5]) (One_d [0; 10]) 3.4 25 2 100e-6 1e-6 1.5e-6
  = Raise ValueError.
Proof.
  apply (@drain_current_shape_mismatch 1500 3.4 25 2 100e-6 1e-6 1.5e-6 [3; 4; 5] [0; 10]);
    [lra | cbn; lia | cbn; lia | cbn; lia].
Defined.

(** X18: the drain current of the graphs page is the simulator's at
    25 degrees Celsius and an effective bandgap of 3.4 eV, where the
    thermal and the bandgap factor are both 1. *)
Theorem graphs_drain_current_is_reference_point
        (mu_eff Vgs Vth W L Cox : R) (Vds : nd R) :
  L <> 0 ->
  exists Id : nd R,
    GraphsTrends.drain_current_model mu_eff (Zero_d Vgs) Vds Vth W L Cox = Val Id
    /\ Realtime.drain_current_model mu_eff (Zero_d Vgs) Vds 3.4 25 Vth W L Cox
       = Val (nd_map Float Id).
Proof.
  intros HL.
  rewrite graphs_drain_current_elementwise by assumption.
  eexists. split; [reflexivity |].
  rewrite drain_current_elementwise by assumption.
  rewrite bandgap_factor_pos by lra. cbn [Py.bind].
  rewrite nd_map_map. f_equal. apply nd_map_ext. intros v.
  rewrite clamped_float_value. do 2 f_equal.
  replace (3.4 / 3.4) with 1 by lra. rewrite Rpower_one_base.
  replace (- (25 - 25) / 150) with 0 by lra. rewrite exp_0.
  unfold sel_float. destruct (Py.lt Vgs Vth); [reflexivity | lra].
Qed.

Lemma graphs_drain_current_is_reference_point_witness :
  exists Id : nd R,
    GraphsTrends.drain_current_model 1500 (Zero_d 5) (One_d [0; 50; 100]) 2 100e-6 1e-6 1.5e-6
    = Val Id
    /\ Realtime.drain_current_model 1500 (Zero_d 5) (One_d [0; 50; 100]) 3.4 25 2 100e-6 1e-6 1.5e-6
       = Val (nd_map Float Id).
Proof.
  apply (@graphs_drain_current_is_reference_point
           1500 5 2 100e-6 1e-6 1.5e-6 (One_d [0; 50; 100])).
  lra.
Defined.

(** ** The sweep of the real-time simulator *)

Lemma linspace_two_or_more (a b : R) (n : nat) :
  (2 <= n)%nat ->
  linspace a b n
  = map (fun i => INR i * ((b - a) / INR (n - 1)) + a) (seq 0 (n - 1)) ++ [b].
Proof.
  intros Hn. destruct n as [| [| m]]; try lia.
  unfold linspace.
  change (Nat.ltb 1 (S (S m))) with true.
  replace (S (S m) - 1)%nat with (S m) by lia.
  change (Nat.ltb 0 (S m)) with true. cbv iota.
  rewrite (seq_S (S m) 0), map_app, removelast_app by discriminate.
  cbn [map removelast]. now rewrite app_nil_r.
Qed.

Lemma linspace_length (a b : R) (n : nat) : length (linspace a b n) = n.
Proof.
  destruct n as [| [| m]]; try reflexivity.
  rewrite linspace_two_or_more by lia.
  rewrite length_app, length_map, length_seq. cbn [length]. lia.
Qed.

(** No point of the grid lies before its start. *)
Lemma linspace_from_start (a b : R) (n : nat) :
  a <= b -> Forall (fun v => a <= v) (linspace a b n).
Proof.
  intros Hab. destruct n as [| [| m]].
  - constructor.
  - unfold linspace. cbn. constructor; [lra | constructor].
  - rewrite linspace_two_or_more by lia.
    apply Forall_app. split; [| constructor; [assumption | constructor]].
    apply Forall_forall. intros v Hv. apply in_map_iff in Hv.
    destruct Hv as (i & <- & _).
    assert (0 <= INR i * ((b - a) / INR (S (S m) - 1))).
    { apply Rmult_le_pos; [apply pos_INR |].
      apply Rmult_le_pos; [lra |].
      left. apply Rinv_0_lt_compat. apply lt_0_INR. lia. }
    lra.
Qed.

Lemma linspace_first (a b v : R) (n : nat) :
  nth_error (linspace a b n) 0 = Some v -> v = a.
Proof.
  destruct n as [| [| m]].
  - discriminate.
  - unfold linspace. cbn. intros H. injection H as <-. lra.
  - rewrite linspace_two_or_more by lia.
    replace (S (S m) - 1)%nat with (S m) by lia.
    cbn [seq map app nth_error]. intros H. injection H as <-.
    cbn [INR]. lra.
Qed.

Lemma nd_map2_map_left {A B C : Type} (f : B -> A -> C) (g : A -> B) (l : list A) :
  nd_map2 f (One_d (map g l)) (One_d l) = Val (One_d (map (fun v => f (g v) v) l)).
Proof.
  pose proof (@nd_map2_same_shape A B A C f g (fun v => v) (One_d l)) as H.
  cbn [nd_map] in H. now rewrite map_id in H.
Qed.

(** X19: the sweep of lines 200-205.  For a positive effective bandgap
    and channel length and a non-negative Vds_max, the drain current over
    [np.linspace(0, Vds_max, 200)] and the power dissipation are arrays of
    200 floats; at every point the current is at least 1e-12 A (so the
    guard [Id_current[1] > 0] of the on-resistance always holds) and the
    power is the product of current and voltage, never negative, and 0 at
    the first point. *)
Theorem realtime_sweep
        (mu_eff Vgs Eg_eff Temp Vds_max channel_length channel_width : R) :
  0 < Eg_eff -> 0 < channel_length -> 0 <= Vds_max ->
  exists Id_current Power : list num,
    Realtime.drain_current_model mu_eff (Zero_d Vgs)
      (One_d (linspace 0 Vds_max 200)) Eg_eff Temp Realtime.default_Vth
      (channel_width * 1e-6) (channel_length * 1e-6) Realtime.default_Cox
    = Val (One_d Id_current)
    /\ Realtime.Power_diss (One_d Id_current) (One_d (linspace 0 Vds_max 200))
       = Val (One_d Power)
    /\ length Id_current = 200%nat
    /\ length Power = 200%nat
    /\ (forall i : nat,
          (i < 200)%nat ->
          exists v id : R,
            nth_error (linspace 0 Vds_max 200) i = Some v
            /\ nth_error Id_current i = Some (Float id)
            /\ nth_error Power i = Some (Float (id * v))
            /\ 0 <= v /\ 1e-12 <= id /\ 0 <= id * v)
    /\ (exists p : R, nth_error Power 0 = Some (Float p) /\ p = 0).
Proof.
  intros HEg HL HV.
  rewrite drain_current_elementwise by lra.
  rewrite bandgap_factor_pos by assumption. cbn [Py.bind nd_map].
  set (bf := Float (Rpower (Eg_eff / 3.4) 0.5)).
  set (f := Element.clamped mu_eff Vgs Realtime.default_Vth (channel_width * 1e-6)
              (channel_length * 1e-6) Realtime.default_Cox Temp bf).
  set (grid := linspace 0 Vds_max 200).
  assert (Hf : forall v : R, exists id : R, f v = Float id /\ 1e-12 <= id).
  { intros v. destruct (@clamped_float mu_eff Vgs Realtime.default_Vth
                          (channel_width * 1e-6) (channel_length * 1e-6)
                          Realtime.default_Cox Temp (Rpower (Eg_eff / 3.4) 0.5) v)
      as (r & Hr & Hfloor & _).
    exists r. split; assumption. }
  assert (Hgrid : forall i v, nth_error grid i = Some v -> 0 <= v).
  { intros i v Hv. apply nth_error_In in Hv.
    pose proof (@linspace_from_start 0 Vds_max 200 HV) as Hall.
    rewrite Forall_forall in Hall. now apply Hall. }
  assert (Hpoint : forall i : nat,
             (i < 200)%nat ->
             exists v id : R,
               nth_error grid i = Some v
               /\ nth_error (map f grid) i = Some (Float id)
               /\ nth_error (map (fun v => Py.mul (f v) (Float v)) grid) i
                  = Some (Float (id * v))
               /\ 0 <= v /\ 1e-12 <= id /\ 0 <= id * v).
  { intros i Hi.
    destruct (nth_error grid i) as [v |] eqn:Hv.
    - destruct (Hf v) as (id & Hid & Hfloor).
      pose proof (Hgrid i v Hv) as Hv0.
      exists v, id. rewrite !nth_error_map, Hv. cbn [option_map]. rewrite Hid.
      repeat split; try assumption; try reflexivity.
      apply Rmult_le_pos; lra.
    - apply nth_error_None in Hv. unfold grid in Hv.
      rewrite linspace_length in Hv. lia. }
  exists (map f grid), (map (fun v => Py.mul (f v) (Float v)) grid).
  split; [reflexivity |].
  split; [unfold Realtime.Power_diss; apply nd_map2_map_left |].
  split; [rewrite length_map; apply linspace_length |].
  split; [rewrite length_map; apply linspace_length |].
  split; [exact Hpoint |].
  destruct (Hpoint 0%nat) as (v & id & Hv & _ & Hp & _); [lia |].
  apply linspace_first in Hv. subst v.
  eexists. split; [exact Hp | lra].
Qed.

Lemma realtime_sweep_witness :
  exists Id_current Power : list num,
    Realtime.drain_current_model 1500 (Zero_d 5)
      (One_d (linspace 0 100 200)) 3.3 50 Realtime.default_Vth
      (100 * 1e-6) (1 * 1e-6) Realtime.default_Cox
    = Val (One_d Id_current)
    /\ Realtime.Power_diss (One_d Id_current) (One_d (linspace 0 100 200))
       = Val (One_d Power)
    /\ length Id_current = 200%nat
    /\ length Power = 200%nat
    /\ (forall i : nat,
          (i < 200)%nat ->
          exists v id : R,
            nth_error (linspace 0 100 200) i = Some v
            /\ nth_error Id_current i = Some (Float id)
            /\ nth_error Power i = Some (Float (id * v))
            /\ 0 <= v /\ 1e-12 <= id /\ 0 <= id * v)
    /\ (exists p : R, nth_error Power 0 = Some (Float p) /\ p = 0).
Proof. apply (@realtime_sweep 1500 5 3.3 50 100 1 100); lra. Defined.

(** ** The slider ranges *)

(** Up to 300 degrees Celsius the Varshni term stays under 0.22 eV. *)
Lemma varshni_term_bound (Tk : R) :
  0 < Tk <= 573.15 ->
  0 < 9.09e-4 * Tk ^ 2 / (Tk + 830) < 0.22.
Proof.
  intros [Hk Hmax].
  assert (Hsq : 0 < Tk ^ 2) by (apply pow_lt; assumption).
  assert (Hup : 9.09e-4 * Tk ^ 2 <= 9.09e-4 * 573.15 * Tk).
  { rewrite Rmult_assoc. apply Rmult_le_compat_l; [lra |].
    simpl. rewrite Rmult_1_r. apply Rmult_le_compat_r; lra. }
  split.
  - apply Rdiv_lt_0_compat; [apply Rmult_lt_0_compat; lra | lra].
  - apply Rmult_lt_reg_r with (Tk + 830); [lra |].
    unfold Rdiv. rewrite Rmult_assoc, Rinv_l, Rmult_1_r by lra. lra.
Qed.

(** 1.5-th and 2.5-th powers between neighbouring integer powers. *)
Lemma Rpower_le_next (x lo hi : R) (n : nat) :
  1 <= x -> lo <= hi -> hi <= INR n -> Rpower x lo <= x ^ n.
Proof.
  intros Hx Hlo Hhi. rewrite <- Rpower_pow by lra.
  apply Rle_Rpower; lra.
Qed.

Lemma Rpower_below_one (x y : R) : 0 < x < 1 -> 0 < y -> Rpower x y < 1.
Proof.
  intros Hx Hy. rewrite <- (Rpower_one_base y). apply Rlt_Rpower_l; lra.
Qed.

Lemma Rpower_2_5_above_cube (x : R) : 0 < x < 1 -> x ^ 3 < Rpower x 2.5.
Proof.
  intros Hx. rewrite <- Rpower_pow by lra.
  replace (INR 3) with (2.5 + 0.5) by (simpl; lra).
  rewrite Rpower_plus.
  pose proof (Rpower_pos x 2.5) as Hp.
  pose proof (@Rpower_below_one x 0.5 Hx) as Hh.
  rewrite <- (Rmult_1_r (Rpower x 2.5)) at 2.
  apply Rmult_lt_compat_l; [assumption | apply Hh; lra].
Qed.

(** X20: for every setting of the sliders of the real-time simulator
    (base mobility 500..3000, base bandgap 3.0..4.0 eV, temperature
    25..300 degrees Celsius) the derived parameters of lines 193-197 are
    computed without error and are real numbers: the mobility is positive
    and at most 1.3 percent above its base value, the effective bandgap
    lies less than 0.22 eV under the base bandgap, the predicted breakdown
    voltage lies between 190 V and 570 V, the leakage current is positive
    and below 1e-16 A, and the saturation velocity is positive. *)
Theorem realtime_parameters_on_slider_ranges (mu_base Eg_base Temp : R) :
  500 <= mu_base <= 3000 -> 3.0 <= Eg_base <= 4.0 -> 25 <= Temp <= 300 ->
  exists mu_eff Eg_eff BV_pred I_leak Vsat : R,
    Realtime.mobility_temp_dep mu_base Temp = Val (Float mu_eff)
    /\ Realtime.bandgap_temp_dep Eg_base Temp = Val Eg_eff
    /\ Realtime.breakdown_voltage_model Eg_eff Realtime.default_thickness
       = Val (Float BV_pred)
    /\ Realtime.leakage_current Eg_eff Temp Realtime.default_area = Val I_leak
    /\ Realtime.saturation_velocity_temp Temp = Val (Float Vsat)
    /\ 0 < mu_eff <= 1.013 * mu_base
    /\ Eg_base - 0.22 < Eg_eff < Eg_base
    /\ 190 < BV_pred < 570
    /\ 0 < I_leak < 1e-16
    /\ 0 < Vsat.
Proof.
  intros Hmu HEg HT.
  assert (Habs : -273.15 < Temp) by lra.
  set (Tk := Temp + 273.15).
  assert (HTk : 298.15 <= Tk <= 573.15) by (unfold Tk; lra).
  destruct (@varshni_term_bound Tk) as [Hterm0 Hterm1]; [lra |].
  set (Eg_eff := Eg_base - 9.09e-4 * Tk ^ 2 / (Tk + 830)).
  assert (HEgeff : Eg_base - 0.22 < Eg_eff < Eg_base) by (unfold Eg_eff; lra).
  destruct (@leakage_current_always_low Eg_eff Temp) as (I_leak & Hleak & Hl0 & Hl1 & _);
    [lra | assumption |].
  exists (mu_base * Rpower (300 / Tk) 1.5), Eg_eff,
    (350 * Rpower (Eg_eff / 3.4) 2.5 * (2e-6 / 2e-6)), I_leak,
    (2.5e7 * sqrt (300 / Tk)).
  assert (Hq : 0 < 300 / Tk) by (apply Rdiv_lt_0_compat; lra).
  split; [now apply realtime_mobility |].
  split; [now apply realtime_bandgap |].
  split; [apply breakdown_voltage_pos; lra |].
  split; [exact Hleak |].
  split; [now apply saturation_velocity_value |].
  split; [| split; [exact HEgeff | split; [| split; [lra |]]]].
  - pose proof (Rpower_pos (300 / Tk) 1.5) as Hp.
    split; [apply Rmult_lt_0_compat; lra |].
    rewrite (Rmult_comm 1.013). apply Rmult_le_compat_l; [lra |].
    destruct (Rle_dec 1 (300 / Tk)) as [Hge | Hlt].
    + apply Rle_trans with ((300 / Tk) ^ 2).
      * apply Rpower_le_next with (hi := 2); [assumption | lra | simpl; lra].
      * assert (Hx : 300 / Tk <= 300 / 298.15).
        { unfold Rdiv. apply Rmult_le_compat_l; [lra |].
          apply Rinv_le_contravar; lra. }
        assert (H2 : (300 / Tk) ^ 2 <= (300 / 298.15) ^ 2).
        { apply pow_incr. lra. }
        assert ((300 / 298.15) ^ 2 <= 1.013); [| lra].
        replace (300 / 298.15) with (6000 / 5963) by lra.
        unfold Rdiv. rewrite Rpow_mult_distr, pow_inv.
        apply Rmult_le_reg_r with (5963 ^ 2); [apply pow_lt; lra |].
        rewrite Rmult_assoc, Rinv_l by (apply pow_nonzero; lra). simpl. lra.
    + left. apply Rlt_trans with 1; [| lra].
      apply Rpower_below_one; lra.
  - replace (2e-6 / 2e-6) with 1 by lra. rewrite Rmult_1_r.
    pose proof (Rpower_pos (Eg_eff / 3.4) 2.5) as Hp.
    split.
    + assert (Hlow : Rpower (2.78 / 3.4) 2.5 < Rpower (Eg_eff / 3.4) 2.5).
      { apply Rlt_Rpower_l; lra. }
      pose proof (@Rpower_2_5_above_cube (2.78 / 3.4)) as Hc.
      assert (Hcube : 0.546 < (2.78 / 3.4) ^ 3).
      { replace (2.78 / 3.4) with (139 / 170) by lra.
        unfold Rdiv. rewrite Rpow_mult_distr, pow_inv.
        apply Rmult_lt_reg_r with (170 ^ 3); [apply pow_lt; lra |].
        rewrite Rmult_assoc, Rinv_l by (apply pow_nonzero; lra). simpl. lra. }
      assert (0.546 < Rpower (2.78 / 3.4) 2.5) by (apply Rlt_trans with (1 := Hcube), Hc; lra).
      lra.
    + assert (Hhigh : Rpower (Eg_eff / 3.4) 2.5 < Rpower (4 / 3.4) 2.5).
      { apply Rlt_Rpower_l; lra. }
      assert (Hc : Rpower (4 / 3.4) 2.5 <= (4 / 3.4) ^ 3).
      { apply Rpower_le_next with (hi := 3); [lra | lra | simpl; lra]. }
      assert (Hcube : (4 / 3.4) ^ 3 < 1.6285).
      { replace (4 / 3.4) with (20 / 17) by lra.
        unfold Rdiv. rewrite Rpow_mult_distr, pow_inv.
        apply Rmult_lt_reg_r with (17 ^ 3); [apply pow_lt; lra |].
        rewrite Rmult_assoc, Rinv_l by (apply pow_nonzero; lra). simpl. lra. }
      lra.
  - apply Rmult_lt_0_compat; [lra | now apply sqrt_lt_R0].
Qed.

Lemma realtime_parameters_on_slider_ranges_witness :
  exists mu_eff Eg_eff BV_pred I_leak Vsat : R,
    Realtime.mobility_temp_dep 1500 50 = Val (Float mu_eff)
    /\ Realtime.bandgap_temp_dep 3.4 50 = Val Eg_eff
    /\ Realtime.breakdown_voltage_model Eg_eff Realtime.default_thickness
       = Val (Float BV_pred)
    /\ Realtime.leakage_current Eg_eff 50 Realtime.default_area = Val I_leak
    /\ Realtime.saturation_velocity_temp 50 = Val (Float Vsat)
    /\ 0 < mu_eff <= 1.013 * 1500
    /\ 3.4 - 0.22 < Eg_eff < 3.4
    /\ 190 < BV_pred < 570
    /\ 0 < I_leak < 1e-16
    /\ 0 < Vsat.
Proof. apply (@realtime_parameters_on_slider_ranges 1500 3.4 50); lra. Defined.

(** ** The text cleaning of the PDF summary *)

Section SafeText.

Import GraphsTrends.

Local Open Scope N_scope.

Lemma replace_singleton (old : N) (new : text) (c : N) :
  replace old new [c] = if N.eqb c old then new else [c].
Proof.
  unfold replace. cbn [flat_map]. destruct (N.eqb c old); [apply app_nil_r | reflexivity].
Qed.

Lemma replace_flat_map (old : N) (new : text) (f : N -> text) (t : text) :
  replace old new (flat_map f t) = flat_map (fun c => replace old new (f c)) t.
Proof.
  unfold replace. induction t as [| c t IH]; [reflexivity |].
  cbn [flat_map]. now rewrite flat_map_app, IH.
Qed.

Lemma fold_replace_flat_map (rs : list (N * text)) (f : N -> text) (t : text) :
  fold_left (fun acc kv => replace (fst kv) (snd kv) acc) rs (flat_map f t)
  = flat_map (fun c => fold_left (fun acc kv => replace (fst kv) (snd kv) acc) rs (f c)) t.
Proof.
  revert f. induction rs as [| [old new] rs IH]; intros f; [reflexivity |].
  cbn [fold_left fst snd]. rewrite replace_flat_map. apply IH.
Qed.

(** The loop works character by character. *)
Lemma safe_text_by_character (t : text) :
  safe_text t = flat_map (fun c => safe_text [c]) t.
Proof.
  unfold safe_text.
  rewrite <- (fold_replace_flat_map replacements (fun c => [c]) t).
  f_equal. induction t as [| c t IH]; [reflexivity |].
  cbn [flat_map app]. now rewrite <- IH.
Qed.

(** On one character the 22 replacements amount to [substitute], whose
    result is plain ASCII for a special character. *)
Lemma safe_text_character (c : N) :
  safe_text [c] = substitute c
  /\ ((In c special_characters /\ Forall (fun d => d < 128) (substitute c)
       /\ substitute c <> [])
      \/ (~ In c special_characters /\ substitute c = [c])).
Proof.
  unfold safe_text, substitute, special_characters, replacements.
  cbn [fold_left find map fst snd].
  repeat (rewrite replace_singleton;
          match goal with
          | |- context [N.eqb c ?k] =>
              destruct (N.eqb_spec c k) as [-> | ?];
              [ split;
                [ vm_compute; reflexivity
                | left; split; [cbn [In]; tauto |];
                  split; [vm_compute; repeat constructor | vm_compute; discriminate] ]
              | ]
          end).
  split; [reflexivity |].
  right. split; [| reflexivity].
  cbn [In]. intuition congruence.
Qed.

End SafeText.

Section SafeTextProperties.

Import GraphsTrends.

Local Open Scope N_scope.

Lemma special_characters_not_ascii (k : N) :
  In k special_characters -> 128 <= k.
Proof.
  unfold special_characters, replacements. cbn [map fst In].
  intros H. repeat (destruct H as [<- | H]; [lia |]). contradiction.
Qed.

(** X23: the loop of 22 successive [replace] calls is one simultaneous
    substitution: every character is mapped on its own, to its replacement
    text when [replacements] has one and to itself otherwise; hence the
    function distributes over concatenation. *)
Theorem safe_text_is_simultaneous_substitution (t u : text) :
  safe_text t = flat_map substitute t
  /\ safe_text (t ++ u) = safe_text t ++ safe_text u.
Proof.
  assert (H : forall x : text, safe_text x = flat_map substitute x).
  { intros x. rewrite safe_text_by_character. apply flat_map_ext.
    intros c. apply safe_text_character. }
  split; [apply H |]. rewrite !H. apply flat_map_app.
Qed.

(** X24: the cleaned text contains none of the 22 special characters. *)
Theorem safe_text_removes_special_characters (t : text) (d : N) :
  In d (safe_text t) -> ~ In d special_characters.
Proof.
  rewrite safe_text_by_character. intros Hd Hkey.
  apply in_flat_map in Hd. destruct Hd as (c & _ & Hd).
  destruct (safe_text_character c) as [Heq [(_ & Hascii & Hne) | [Hnot Hsame]]];
    rewrite Heq in Hd.
  - rewrite Forall_forall in Hascii. apply Hascii in Hd.
    apply special_characters_not_ascii in Hkey. lia.
  - rewrite Hsame in Hd. destruct Hd as [<- | []]. contradiction.
Qed.

Lemma safe_text_removes_special_characters_witness :
  ~ In 48 special_characters.
Proof.
  apply (@safe_text_removes_special_characters [0x3bc; 0x2080] 48).
  vm_compute. tauto.
Defined.

(** Text without special characters passes unchanged. *)
Lemma safe_text_fixed (t : text) :
  (forall c, In c t -> ~ In c special_characters) -> safe_text t = t.
Proof.
  intros H. rewrite safe_text_by_character.
  induction t as [| c t IH]; [reflexivity |].
  cbn [flat_map].
  destruct (safe_text_character c) as [Heq [(Hkey & _) | [_ Hsame]]].
  - elim (H c); [now left | assumption].
  - rewrite Heq, Hsame. cbn [app]. f_equal.
    apply IH. intros c' Hc'. apply H. now right.
Qed.

(** X25: a text is returned unchanged exactly when it contains no
    special character; plain ASCII text in particular is. *)
Theorem safe_text_unchanged_iff (t : text) :
  (safe_text t = t <-> forall c, In c t -> ~ In c special_characters)
  /\ (Forall (fun c => c < 128) t -> safe_text t = t).
Proof.
  split; [split |].
  - intros Heq c Hc. rewrite <- Heq in Hc.
    now apply safe_text_removes_special_characters in Hc.
  - apply safe_text_fixed.
  - intros Hascii. apply safe_text_fixed. intros c Hc Hkey.
    rewrite Forall_forall in Hascii. apply Hascii in Hc.
    apply special_characters_not_ascii in Hkey. lia.
Qed.

Lemma safe_text_unchanged_iff_witness :
  safe_text (ascii_text "Computed Metrics:") = ascii_text "Computed Metrics:".
Proof.
  apply (@safe_text_unchanged_iff (ascii_text "Computed Metrics:")).
  vm_compute. repeat constructor.
Defined.

(** X26: cleaning twice is cleaning once. *)
Theorem safe_text_idempotent (t : text) :
  safe_text (safe_text t) = safe_text t.
Proof.
  apply safe_text_fixed. intros c. apply safe_text_removes_special_characters.
Qed.

(** X27: when every character of the text outside Latin-1 is one of the
    special characters, the cleaned text lies within Latin-1 (code points
    up to 255), and it is never shorter than the text. *)
Theorem safe_text_latin1 (t : text) :
  Forall (fun c => c <= 255 \/ In c special_characters) t ->
  Forall (fun c => c <= 255) (safe_text t)
  /\ (length t <= length (safe_text t))%nat.
Proof.
  intros H. rewrite safe_text_by_character.
  induction H as [| c t Hc _ IH]; [split; [constructor | reflexivity] |].
  cbn [flat_map]. destruct IH as [IH1 IH2].
  destruct (safe_text_character c) as [Heq [(_ & Hascii & Hne) | [Hnot Hsame]]];
    rewrite Heq.
  - split.
    + apply Forall_app. split; [| exact IH1].
      eapply Forall_impl; [| exact Hascii]. cbn beta. intros d Hd. lia.
    + rewrite length_app. cbn [length].
      assert (Hlen : (1 <= length (substitute c))%nat).
      { destruct (substitute c); [contradiction | cbn [length]; lia]. }
      lia.
  - rewrite Hsame. cbn [app length]. split; [| lia].
    constructor; [| exact IH1].
    destruct Hc as [Hc | Hc]; [exact Hc | contradiction].
Qed.

End SafeTextProperties.

Section SafeTextExamples.

Import GraphsTrends.

Local Open Scope N_scope.

(** The unit of the mobility line of the report, [μ₀: cm²/V·s]. *)
Lemma safe_text_latin1_witness :
  Forall (fun c => c <= 255)
         (safe_text [0x3bc; 0x2080; 58; 32; 99; 109; 0xb2; 47; 86; 0xb7; 115])
  /\ Nat.le (length [0x3bc; 0x2080; 58; 32; 99; 109; 0xb2; 47; 86; 0xb7; 115])
            (length (safe_text [0x3bc; 0x2080; 58; 32; 99; 109; 0xb2; 47; 86; 0xb7; 115])).
Proof.
  apply (@safe_text_latin1 [0x3bc; 0x2080; 58; 32; 99; 109; 0xb2; 47; 86; 0xb7; 115]).
  repeat (constructor;
          [ first [ left; vm_compute; discriminate
                  | right; unfold special_characters, replacements;
                    cbn [map fst In]; auto 30 ]
          | ]).
  constructor.
Defined.

(** The same text cleaned: [u0: cm2/V·s], the middle dot kept. *)
Example safe_text_mobility_unit :
  safe_text [0x3bc; 0x2080; 58; 32; 99; 109; 0xb2; 47; 86; 0xb7; 115]
  = [117; 48; 58; 32; 99; 109; 50; 47; 86; 0xb7; 115].
Proof. vm_compute. reflexivity. Qed.

End SafeTextExamples.

(** ** The summary metrics of the graphs page *)

Lemma linspace_up_to_stop (a b : R) (n : nat) :
  a <= b -> Forall (fun v => v <= b) (linspace a b n).
Proof.
  intros Hab. destruct n as [| [| m]].
  - constructor.
  - unfold linspace. cbn. constructor; [lra | constructor].
  - rewrite linspace_two_or_more by lia.
    apply Forall_app. split; [| constructor; [lra | constructor]].
    apply Forall_forall. intros v Hv. apply in_map_iff in Hv.
    destruct Hv as (i & <- & Hi). apply in_seq in Hi.
    replace (S (S m) - 1)%nat with (S m) in * by lia.
    assert (Hden : 0 < INR (S m)) by (apply lt_0_INR; lia).
    assert (Hi' : INR i <= INR (S m)) by (apply le_INR; lia).
    assert (Hfrac : INR i * / INR (S m) <= 1).
    { apply Rmult_le_reg_r with (INR (S m)); [assumption |].
      rewrite Rmult_assoc, Rinv_l by lra. lra. }
    assert (Hprod : (b - a) * (INR i * / INR (S m)) <= (b - a) * 1).
    { apply Rmult_le_compat_l; lra. }
    unfold Rdiv.
    replace (INR i * ((b - a) * / INR (S m))) with ((b - a) * (INR i * / INR (S m)))
      by ring.
    lra.
Qed.

Lemma linspace_head (a b : R) (n : nat) :
  (2 <= n)%nat ->
  exists (t0 : R) (rest : list R),
    linspace a b n = t0 :: rest /\ t0 = a /\ In b (t0 :: rest).
Proof.
  intros Hn. pose proof (linspace_two_or_more a b Hn) as Heq.
  destruct n as [| [| m]]; try lia.
  replace (S (S m) - 1)%nat with (S m) in Heq by lia.
  cbn [seq map app] in Heq.
  eexists. eexists. split; [exact Heq |]. split.
  - cbn [INR]. lra.
  - rewrite <- Heq, (linspace_two_or_more a b Hn). apply in_or_app. right. now left.
Qed.

Lemma for_each_map {A B : Type} (g : A -> result B) (f : A -> B) (l : list A) :
  (forall a, In a l -> g a = Val (f a)) ->
  GraphsTrends.for_each g l = Val (map f l).
Proof.
  induction l as [| a l IH]; intros H; [reflexivity |].
  cbn [GraphsTrends.for_each map].
  rewrite (H a) by now left. cbn [Py.bind].
  rewrite IH by (intros a' Ha'; apply H; now right). reflexivity.
Qed.

(** The running maximum stays at a first element that nothing exceeds. *)
Lemma fold_maximum_first {A : Type} (v : A -> R) (v0 : R) (l : list A) :
  (forall a, In a l -> v a <= v0) ->
  fold_left maximum (map (fun a => Float (v a)) l) (Float v0) = Float v0.
Proof.
  induction l as [| a l IH]; intros H; [reflexivity |].
  cbn [map fold_left maximum].
  rewrite Rmax_left by (apply H; now left).
  apply IH. intros a' Ha'. apply H. now right.
Qed.

(** The running minimum ends at a lower bound that the list attains. *)
Lemma fold_Rmin_attained (m x : R) (xs : list R) :
  (forall y, In y (x :: xs) -> m <= y) -> In m (x :: xs) ->
  fold_left Rmin xs x = m.
Proof.
  revert x. induction xs as [| y xs IH]; intros x Hlow Hin.
  - destruct Hin as [-> | []]. reflexivity.
  - cbn [fold_left]. apply IH.
    + intros z [<- | Hz].
      * apply Rmin_glb; apply Hlow; [now left | right; now left].
      * apply Hlow. right. now right.
    + destruct Hin as [-> | [-> | Hin]].
      * left. apply Rmin_left. apply Hlow. right. now left.
      * left. apply Rmin_right. apply Hlow. now left.
      * now right.
Qed.

Lemma graphs_breakdown_voltage_pos (Eg : R) :
  0 < Eg ->
  GraphsTrends.breakdown_voltage_model Eg = Val (Float (350 * Rpower (Eg / 3.4) 2.5)).
Proof.
  intros H. unfold GraphsTrends.breakdown_voltage_model.
  rewrite pow_pos by (apply Rdiv_lt_0_compat; lra). reflexivity.
Qed.

(** X30: the summary metrics of the report are attained at the ends of
    the temperature sweep [np.linspace(25, 300, 80)].  For a positive base
    mobility and a base bandgap of at least 0.22 eV the three sweeps are
    lists of 80 real numbers; the maximum mobility is the mobility at
    25 degrees Celsius, the minimum bandgap is the bandgap at 300 degrees
    Celsius, and the maximum breakdown voltage is the one of the bandgap at
    25 degrees Celsius. *)
Theorem summary_metrics_at_range_ends (mu_base Eg_base : R) :
  0 < mu_base -> 0.22 <= Eg_base ->
  exists (mus : list num) (Egs : list R) (BVs : list num),
    GraphsTrends.mu_T mu_base = Val mus
    /\ GraphsTrends.Eg_T Eg_base = Val Egs
    /\ GraphsTrends.BV_Eg_T Egs = Val BVs
    /\ length mus = 80%nat /\ length Egs = 80%nat /\ length BVs = 80%nat
    /\ GraphsTrends.np_max mus
       = Val (Float (mu_base * Rpower (300 / (25 + 273.15)) 1.5))
    /\ GraphsTrends.np_min Egs
       = Val (Eg_base - 9.09e-4 * (300 + 273.15) ^ 2 / (300 + 273.15 + 830))
    /\ GraphsTrends.np_max BVs
       = Val (Float (350 * Rpower ((Eg_base - 9.09e-4 * (25 + 273.15) ^ 2
                                               / (25 + 273.15 + 830)) / 3.4) 2.5)).
Proof.
  intros Hmu HEg.
  set (mob := fun T : R => mu_base * Rpower (300 / (T + 273.15)) 1.5).
  set (gap := fun T : R => Eg_base - 9.09e-4 * (T + 273.15) ^ 2 / (T + 273.15 + 830)).
  set (bv := fun T : R => 350 * Rpower (gap T / 3.4) 2.5).
  assert (Hlo : forall T, In T GraphsTrends.T_range -> 25 <= T).
  { pose proof (@linspace_from_start 25 300 80) as H.
    rewrite Forall_forall in H. apply H. lra. }
  assert (Hhi : forall T, In T GraphsTrends.T_range -> T <= 300).
  { pose proof (@linspace_up_to_stop 25 300 80) as H.
    rewrite Forall_forall in H. apply H. lra. }
  assert (Hgap_pos : forall T, 25 <= T <= 300 -> 0 < gap T).
  { intros T HT. unfold gap.
    destruct (@varshni_term_bound (T + 273.15)) as [_ Hb]; [lra | lra]. }
  assert (Hgap_mono : forall T1 T2, 25 <= T1 -> T1 <= T2 -> gap T2 <= gap T1).
  { intros T1 T2 H1 H12. unfold gap.
    destruct (Req_dec_T T1 T2) as [-> | Hne]; [lra |].
    pose proof (@varshni_term_increasing 9.09e-4 830 (T1 + 273.15) (T2 + 273.15)) as Hinc.
    assert (9.09e-4 * (T1 + 273.15) ^ 2 / (T1 + 273.15 + 830)
            < 9.09e-4 * (T2 + 273.15) ^ 2 / (T2 + 273.15 + 830)) by (apply Hinc; lra).
    lra. }
  assert (Hmus : GraphsTrends.mu_T mu_base
                 = Val (map (fun T => Float (mob T)) GraphsTrends.T_range)).
  { unfold GraphsTrends.mu_T. apply for_each_map. intros T HT.
    unfold GraphsTrends.mobility_temp_dep. apply realtime_mobility.
    apply Hlo in HT. lra. }
  assert (HEgs : GraphsTrends.Eg_T Eg_base = Val (map gap GraphsTrends.T_range)).
  { unfold GraphsTrends.Eg_T. apply for_each_map. intros T HT.
    unfold GraphsTrends.bandgap_temp_dep. apply realtime_bandgap.
    apply Hlo in HT. lra. }
  assert (HBVs : GraphsTrends.BV_Eg_T (map gap GraphsTrends.T_range)
                 = Val (map (fun T => Float (bv T)) GraphsTrends.T_range)).
  { unfold GraphsTrends.BV_Eg_T.
    rewrite <- (map_map gap (fun e => Float (350 * Rpower (e / 3.4) 2.5))).
    apply for_each_map. intros e He. apply in_map_iff in He.
    destruct He as (T & <- & HT).
    apply graphs_breakdown_voltage_pos. apply Hgap_pos.
    split; [now apply Hlo | now apply Hhi]. }
  exists (map (fun T => Float (mob T)) GraphsTrends.T_range),
    (map gap GraphsTrends.T_range),
    (map (fun T => Float (bv T)) GraphsTrends.T_range).
  split; [exact Hmus |]. split; [exact HEgs |]. split; [exact HBVs |].
  unfold GraphsTrends.T_range in *.
  rewrite !length_map, linspace_length.
  split; [reflexivity |]. split; [reflexivity |]. split; [reflexivity |].
  destruct (@linspace_head 25 300 80) as (t0 & rest & Hgrid & Ht0 & Hlast); [lia |].
  rewrite Hgrid in *. subst t0.
  cbn [map GraphsTrends.np_max GraphsTrends.np_min].
  split; [| split].
  - rewrite fold_maximum_first; [reflexivity |].
    intros T HT.
    assert (H25 : 25 <= T) by (apply Hlo; now right).
    unfold mob. apply Rmult_le_compat_l; [lra |].
    apply Rle_Rpower_l; [lra |]. split.
    + apply Rdiv_lt_0_compat; lra.
    + unfold Rdiv. apply Rmult_le_compat_l; [lra |].
      apply Rinv_le_contravar; lra.
  - f_equal. change (gap 25 :: map gap rest) with (map gap (25 :: rest)).
    apply (@fold_Rmin_attained (gap 300) (gap 25) (map gap rest)).
    + intros y Hy. change (gap 25 :: map gap rest) with (map gap (25 :: rest)) in Hy.
      apply in_map_iff in Hy. destruct Hy as (T & <- & HT).
      apply Hgap_mono; [now apply Hlo | now apply Hhi].
    + change (gap 25 :: map gap rest) with (map gap (25 :: rest)).
      now apply in_map.
  - rewrite fold_maximum_first; [reflexivity |].
    intros T HT.
    assert (H25 : 25 <= T) by (apply Hlo; now right).
    assert (H300 : T <= 300) by (apply Hhi; now right).
    unfold bv. apply Rmult_le_compat_l; [lra |].
    apply Rle_Rpower_l; [lra |].
    pose proof (Hgap_pos T (conj H25 H300)) as Hp.
    pose proof (Hgap_mono 25 T (Rle_refl 25) H25) as Hm.
    split; lra.
Qed.

Lemma summary_metrics_at_range_ends_witness :
  exists (mus : list num) (Egs : list R) (BVs : list num),
    GraphsTrends.mu_T 1500 = Val mus
    /\ GraphsTrends.Eg_T 3.4 = Val Egs
    /\ GraphsTrends.BV_Eg_T Egs = Val BVs
    /\ length mus = 80%nat /\ length Egs = 80%nat /\ length BVs = 80%nat
    /\ GraphsTrends.np_max mus
       = Val (Float (1500 * Rpower (300 / (25 + 273.15)) 1.5))
    /\ GraphsTrends.np_min Egs
       = Val (3.4 - 9.09e-4 * (300 + 273.15) ^ 2 / (300 + 273.15 + 830))
    /\ GraphsTrends.np_max BVs
       = Val (Float (350 * Rpower ((3.4 - 9.09e-4 * (25 + 273.15) ^ 2
                                           / (25 + 273.15 + 830)) / 3.4) 2.5)).
Proof. apply (@summary_metrics_at_range_ends 1500 3.4); lra. Defined.
